(** * memory-models-rough: the layout and rendering engine of [src/index.js]

    A shallow embedding of the [MemoryModel] class: the configuration, the
    text metric [getTextLength], the drawing primitives [drawRect] and
    [drawText], the per-kind renderers and the batch entry point [drawAll].

    Modelling conventions.
    - A JavaScript number used as a length or a coordinate is an exact
      rational ([Q]).  The default configuration and every quantity the code
      derives from it by [+], [-], [*], [/2], [/4], [/8] and [*1.5] is a
      dyadic rational, on which double arithmetic is exact, so these
      operations are not rounded.  The one other constant, the 0.6 that
      places the name of a stack frame, is not a binary fraction: the literal
      is the double nearest to 0.6, and the product and the sum it enters are
      rounded as the double operations round them ([nearest_double]).
    - A value read from a descriptor is a [jsval]; the string conversions are
      those of the language on the values [plain] accepts: numbers that are
      safe integers, objects that do not redefine [toString].
    - A JavaScript string is a [string]; one [ascii] stands for one UTF-16
      code unit, so [String.length] is the [.length] of the source.
    - The children of the root [svg] element are a [list node]; [appendChild]
      appends at the end.  A rough.js rectangle is recorded by the arguments
      it was created from.
    - A draw call is a computation over that list which completes normally,
      throws (the list keeps what was appended before the throw), or leaves
      the modelled fragment (a coordinate or a length that is not a number:
      arithmetic on [NaN]). *)

From Stdlib Require Import ZArith QArith Qminmax Qabs Qround.
From Stdlib Require Import String Ascii List Bool Lia Lqa.
From Stdlib Require Import DecimalString DecimalZ DecimalPos.
Import ListNotations.

Local Open Scope string_scope.
Local Open Scope Q_scope.

(** ** JavaScript values *)

#[local] Set Warnings "-register-all".

Module JS.

(** The values a descriptor can carry once parsed from JSON, plus
    [undefined].  An object is the list of its own enumerable properties in
    the order [for ... in] and [Object.keys] enumerate them. Numbers are the
    integers (ids, indices and the literals of the examples); [plain] below
    says which of these values the conversions of this module read as the
    language does. *)
Inductive jsval : Type :=
| VUndefined
| VNull
| VBool (b : bool)
| VNum (n : Z)
| VStr (s : string)
| VArr (l : list jsval)
| VObj (o : list (string * jsval)).

Definition is_null (v : jsval) : bool :=
  match v with VNull => true | _ => false end.

Definition is_undefined (v : jsval) : bool :=
  match v with VUndefined => true | _ => false end.

(** [v === "s"] for a string literal [s]. *)
Definition is_string (s : string) (v : jsval) : bool :=
  match v with VStr t => String.eqb t s | _ => false end.

(** [arr.includes(v)] for an array of string literals. *)
Definition includes (arr : list string) (v : jsval) : bool :=
  existsb (fun s => is_string s v) arr.

(** ToBoolean. *)
Definition truthy (v : jsval) : bool :=
  match v with
  | VUndefined | VNull => false
  | VBool b => b
  | VNum n => negb (n =? 0)%Z
  | VStr s => negb (String.eqb s "")
  | VArr _ | VObj _ => true
  end.

(** [Number.isSafeInteger(n)]: an integer of magnitude at most [2^53 - 1].
    A double holds every such integer exactly. *)
Definition isSafeInteger (n : Z) : bool :=
  (Z.abs n <=? 9007199254740991)%Z.

(** Number::toString on a safe integer: its decimal numeral.  (The language
    prints an exponent from [1e21] on, and no double lies between two
    neighbouring integers beyond [2^53].) *)
Definition string_of_Z (n : Z) : string :=
  NilZero.string_of_int (Z.to_int n).

(** ToString (what [String(v)], a template literal and string [+] apply), on
    a value that converts.  An object converts through the [toString] it
    inherits; one with an own property of that name does not convert (the
    property of a parsed value is not callable, and the conversion throws a
    TypeError): see [plain]. *)
Fixpoint ToString (v : jsval) : string :=
  match v with
  | VUndefined => "undefined"
  | VNull => "null"
  | VBool true => "true"
  | VBool false => "false"
  | VNum n => string_of_Z n
  | VStr s => s
  | VArr l =>
      String.concat ","
        (map (fun e => match e with
                       | VUndefined | VNull => ""
                       | _ => ToString e
                       end) l)
  | VObj _ => "[object Object]"
  end.

(** The values on which [ToString] and [JSON_stringify] are the conversions
    of the language: every number in the value is a safe integer and no
    object in it has an own property named [toString]. *)
Fixpoint plain (v : jsval) : bool :=
  match v with
  | VNum n => isSafeInteger n
  | VArr l => forallb plain l
  | VObj o =>
      negb (existsb (fun kv => String.eqb (fst kv) "toString") o)
      && forallb (fun kv => plain (snd kv)) o
  | _ => true
  end.

(** Rounding to the nearest integer, a tie to the even one. *)
Definition round_half_even (q : Q) : Z :=
  let f := Qfloor q in
  match Qcompare (q - inject_Z f) (1 # 2) with
  | Lt => f
  | Gt => (f + 1)%Z
  | Eq => if Z.even f then f else (f + 1)%Z
  end.

(** The double nearest to a real number, a tie going to the even
    significand: the value a numeric literal denotes, and the result of a
    double operation on its exact result.  The significand has 53 bits and
    the exponent of its last bit is at least -1074; as for every other
    number of the model, the exponent is not bounded above. *)
Definition nearest_double (q : Q) : Q :=
  match Qnum q with
  | Z0 => 0
  | _ =>
      let a := Qabs q in
      let e0 := (Z.log2 (Qnum a) - Z.log2 (Zpos (Qden a)))%Z in
      let k := match Qcompare a (Qpower 2 e0) with
               | Lt => (e0 - 1)%Z
               | _ => e0
               end in
      let e := Z.max (k - 52) (-1074) in
      let m := round_half_even (a / Qpower 2 e) in
      Qred (inject_Z (Z.sgn (Qnum q) * m) * Qpower 2 e)
  end.

Definition quote : ascii := ascii_of_nat 34.
Definition backslash : ascii := ascii_of_nat 92.
Definition str1 (c : ascii) : string := String c EmptyString.

Definition hex_digit (n : nat) : ascii :=
  nth n ["0"; "1"; "2"; "3"; "4"; "5"; "6"; "7";
         "8"; "9"; "a"; "b"; "c"; "d"; "e"; "f"]%char "0"%char.

(** QuoteJSONString, one code unit at a time. *)
Definition json_escape (c : ascii) : string :=
  let n := nat_of_ascii c in
  if (n =? 34)%nat then String backslash (str1 quote)
  else if (n =? 92)%nat then String backslash (str1 backslash)
  else if (n =? 8)%nat then String backslash "b"
  else if (n =? 9)%nat then String backslash "t"
  else if (n =? 10)%nat then String backslash "n"
  else if (n =? 12)%nat then String backslash "f"
  else if (n =? 13)%nat then String backslash "r"
  else if (n <? 32)%nat then
    String backslash
      ("u00" ++ String (hex_digit (n / 16)) (str1 (hex_digit (n mod 16))))
  else str1 c.

Fixpoint json_escape_all (s : string) : string :=
  match s with
  | EmptyString => EmptyString
  | String c s' => json_escape c ++ json_escape_all s'
  end.

Definition json_quote (s : string) : string :=
  String quote (json_escape_all s ++ str1 quote).

(** [JSON.stringify(v)]: a string, or [None] for [undefined]. *)
Fixpoint JSON_stringify (v : jsval) : option string :=
  match v with
  | VUndefined => None
  | VNull => Some "null"
  | VBool true => Some "true"
  | VBool false => Some "false"
  | VNum n => Some (string_of_Z n)
  | VStr s => Some (json_quote s)
  | VArr l =>
      Some ("[" ++ String.concat ","
                     (map (fun e => match JSON_stringify e with
                                    | Some t => t
                                    | None => "null"
                                    end) l) ++ "]")
  | VObj o =>
      Some ("{" ++ String.concat ","
                     (flat_map (fun kv => match JSON_stringify (snd kv) with
                                          | Some t => [json_quote (fst kv) ++ ":" ++ t]
                                          | None => []
                                          end) o) ++ "}")
  end.

(** The value of an expression that is a string or [undefined]. *)
Definition of_option (o : option string) : jsval :=
  match o with Some s => VStr s | None => VUndefined end.

Fixpoint indexed {A : Type} (i : nat) (l : list A) : list (nat * A) :=
  match l with
  | [] => []
  | a :: l' => (i, a) :: indexed (S i) l'
  end.

Fixpoint chars (s : string) : list string :=
  match s with
  | EmptyString => []
  | String c s' => str1 c :: chars s'
  end.

(** The own enumerable properties of a value, in enumeration order: those of
    an object, the indices of an array or of a string, none otherwise. *)
Definition props (v : jsval) : list (string * jsval) :=
  match v with
  | VObj o => o
  | VArr l => map (fun ie => (string_of_Z (Z.of_nat (fst ie)), snd ie)) (indexed 0 l)
  | VStr s => map (fun ie => (string_of_Z (Z.of_nat (fst ie)), VStr (snd ie)))
                  (indexed 0 (chars s))
  | _ => []
  end.

Fixpoint lookup (k : string) (o : list (string * jsval)) : jsval :=
  match o with
  | [] => VUndefined
  | (k', v) :: o' => if String.eqb k' k then v else lookup k o'
  end.

(** [v[k]] on a value that is not null or undefined, for a key that is not
    one of the built-in prototype properties. *)
Definition get (v : jsval) (k : string) : jsval := lookup k (props v).

End JS.
Export JS.

(** ** The output surface *)

(** A child of the root [svg] element. *)
Inductive node : Type :=
| Rect (x y width height : Q) (style : string)
| Text (data : string) (x y : Q) (fill anchor : string) (font_size : Q).

Definition svg : Type := list node.

Inductive error : Type := TypeError.

Inductive completion (A : Type) : Type :=
| Normal (a : A)
| Throw (e : error)
| NotModelled.
Arguments Normal {A} a.
Arguments Throw {A} e.
Arguments NotModelled {A}.

(** A method body: it reads and extends the children of [this.svg]. *)
Definition M (A : Type) : Type := svg -> completion A * svg.

Definition ret {A : Type} (a : A) : M A := fun s => (Normal a, s).

Definition bind {A B : Type} (m : M A) (f : A -> M B) : M B :=
  fun s =>
    match m s with
    | (Normal a, s') => f a s'
    | (Throw e, s') => (Throw e, s')
    | (NotModelled, s') => (NotModelled, s')
    end.

Definition throw {A : Type} (e : error) : M A := fun s => (Throw e, s).
Definition not_modelled {A : Type} : M A := fun s => (NotModelled, s).
Definition appendChild (n : node) : M unit := fun s => (Normal tt, (s ++ [n])%list).

Notation "x <- m ;; k" := (bind m (fun x => k))
  (at level 61, m at next level, right associativity).
Notation "m ;; k" := (bind m (fun _ => k))
  (at level 61, right associativity).

(** [l.forEach((v, i) => ...)] where the callback updates the enclosing
    function's locals [st]. *)
Fixpoint forEach {A St : Type} (body : St -> A -> nat -> M St)
         (l : list A) (i : nat) (st : St) : M St :=
  match l with
  | [] => ret st
  | v :: l' => st' <- body st v i ;; forEach body l' (S i) st'
  end.

(** [for (const k in obj) ...], the body updating the locals [st]. *)
Definition for_in {St : Type} (body : St -> string -> M St)
           (obj : jsval) (st : St) : M St :=
  forEach (fun st kv _ => body st (fst kv)) (props obj) 0%nat st.

(** [element_ids.forEach(...)]: only an array has the method. *)
Definition forEachOf {St : Type} (body : St -> jsval -> nat -> M St)
           (element_ids : jsval) (st : St) : M St :=
  match element_ids with
  | VArr l => forEach body l 0%nat st
  | _ => throw TypeError
  end.

(** [element_ids.length], read after [forEach] has succeeded. *)
Definition length_of (element_ids : jsval) : M Q :=
  match element_ids with
  | VArr l => ret (inject_Z (Z.of_nat (List.length l)))
  | _ => not_modelled
  end.

(** [Object.keys(v)]. *)
Definition Object_keys (v : jsval) : M (list string) :=
  match v with
  | VUndefined | VNull => throw TypeError
  | _ => ret (map fst (props v))
  end.

(** [v.k] as an expression: reading a property of null or undefined throws. *)
Definition getprop (v : jsval) (k : string) : M jsval :=
  match v with
  | VUndefined | VNull => throw TypeError
  | _ => ret (get v k)
  end.

(** A descriptor's coordinate as a number. *)
Definition to_coord (v : jsval) : M Q :=
  match v with
  | VNum n => ret (inject_Z n)
  | _ => not_modelled
  end.

(** [a > b] on numbers. *)
Definition Qgtb (a b : Q) : bool :=
  match a ?= b with Gt => true | _ => false end.

(** ** Configuration *)

(** The fields a [MemoryModel] copies from [config] or from its options. *)
Record Config : Type := {
  rect_style : string;
  text_color : string;
  value_color : string;
  id_color : string;
  item_min_width : Q;
  item_min_height : Q;
  obj_min_width : Q;
  obj_min_height : Q;
  prop_min_width : Q;
  prop_min_height : Q;
  obj_x_padding : Q;
  double_rect_sep : Q;
  list_index_sep : Q;
  font_size : Q;
  browser : bool
}.

Definition config : Config := {|
  rect_style := "rgb(0, 0, 0)";
  text_color := "rgb(0, 0, 0)";
  value_color := "rgb(27, 14, 139)";
  id_color := "rgb(150, 100, 28)";
  item_min_width := 50;
  item_min_height := 50;
  obj_min_width := 200;
  obj_min_height := 130;
  prop_min_width := 60;
  prop_min_height := 50;
  obj_x_padding := 25;
  double_rect_sep := 6;
  list_index_sep := 20;
  font_size := 20;
  browser := false
|}.

Definition immutable : list string :=
  ["int"; "str"; "tuple"; "None"; "bool"; "float"; "date"].
Definition collections : list string :=
  ["list"; "set"; "tuple"; "dict"].

(** ** The methods of [MemoryModel] *)

Section MemoryModel.

Variable this : Config.

(** [s.length * 12] for a string [s]. *)
Definition textLength (s : string) : Q :=
  inject_Z (Z.of_nat (String.length s)) * 12.

(** [getTextLength(s)] for an argument of any type.  [undefined.length]
    throws; a [length] that is not a string's or an array's makes the product
    leave the modelled numbers. *)
Definition getTextLength (s : jsval) : M Q :=
  match s with
  | VStr t => ret (textLength t)
  | VArr l => ret (inject_Z (Z.of_nat (List.length l)) * 12)
  | VUndefined | VNull => throw TypeError
  | _ => not_modelled
  end.

(** The element [drawRect] builds: rough.js draws the rectangle from these
    arguments. *)
Definition rectangle (x y width height : Q) (style : option string) : node :=
  let style := match style with
               | None => rect_style this
               | Some st => st
               end in
  Rect x y width height style.

Definition drawRect (x y width height : Q) (style : option string) : M unit :=
  appendChild (rectangle x y width height style).

(** The element [drawText] builds; its text node holds the string
    conversion of [text]. *)
Definition newElement (text : jsval) (x y : Q) (colour : string)
           (align : option string) : node :=
  let colour := if String.eqb colour "" then text_color this else colour in
  let align := match align with
               | Some a => if String.eqb a "" then "middle" else a
               | None => "middle"
               end in
  Text (ToString text) x y colour align (font_size this).

Definition drawText (text : jsval) (x y : Q) (colour : string)
           (align : option string) : M unit :=
  appendChild (newElement text x y colour align).

Definition drawProperties (id type : jsval) (x y width : Q) : M unit :=
  len_id <- getTextLength (VStr ("id" ++ ToString id)) ;;
  let id_box := Qmax (prop_min_width this) (len_id + 10) in
  len_type <- getTextLength type ;;
  let type_box := Qmax (prop_min_width this) (len_type + 10) in
  drawText (if is_null id then VStr "" else VStr ("id" ++ ToString id))
           (x + id_box / 2) (y + font_size this * 1.5) (id_color this) None ;;
  drawText type (x + width - type_box / 2) (y + font_size this * 1.5)
           (value_color this) None ;;
  drawRect x y id_box (prop_min_height this) None ;;
  drawRect (x + width - type_box) y type_box (prop_min_height this) None.

Definition drawPrimitive (x y : Q) (type id value : jsval) : M unit :=
  len <- getTextLength (VStr (ToString value)) ;;
  let box_width := Qmax (obj_min_width this) (len + obj_x_padding this) in
  drawRect x y box_width (obj_min_height this) None ;;
  (if includes immutable type then
     drawRect (x - double_rect_sep this) (y - double_rect_sep this)
              (box_width + 2 * double_rect_sep this)
              (obj_min_height this + 2 * double_rect_sep this) None
   else ret tt) ;;
  let display_text :=
    if is_string "bool" type
    then VStr (if truthy value then "True" else "False")
    else of_option (JSON_stringify value) in
  (if negb (is_null value) && negb (is_undefined value) then
     drawText display_text (x + box_width / 2)
              (y + (obj_min_height this + prop_min_height this) / 2)
              (value_color this) None
   else ret tt) ;;
  drawProperties id type x y box_width.

Definition drawSequence (x y : Q) (type id element_ids show_idx : jsval)
  : M unit :=
  let box_width := obj_x_padding this * 2 in
  box_width <-
    forEachOf (fun box_width v _ =>
      len <- getTextLength (VStr (if is_null v then "" else "id" ++ ToString v)) ;;
      ret (box_width + Qmax (item_min_width this) (len + 10)))
      element_ids box_width ;;
  let box_width := Qmax (obj_min_width this) box_width in
  let box_height := obj_min_height this in
  let box_height :=
    if truthy show_idx then box_height + list_index_sep this else box_height in
  drawRect x y box_width box_height None ;;
  (if includes immutable type then
     drawRect (x - double_rect_sep this) (y - double_rect_sep this)
              (box_width + 2 * double_rect_sep this)
              (box_height + 2 * double_rect_sep this) None
   else ret tt) ;;
  let curr_x := x + item_min_width this / 2 in
  let item_y :=
    y + prop_min_height this
    + (obj_min_height this - prop_min_height this - item_min_height this) / 2 in
  let item_y :=
    if truthy show_idx then item_y + list_index_sep this else item_y in
  forEachOf (fun curr_x v i =>
      let idv := if is_null v then "" else "id" ++ ToString v in
      len <- getTextLength (VStr idv) ;;
      let item_length := Qmax (item_min_width this) (len + 10) in
      drawRect curr_x item_y item_length (item_min_height this) None ;;
      drawText (VStr idv) (curr_x + item_length / 2)
               (item_y + item_min_height this / 2 + font_size this / 4)
               (id_color this) None ;;
      (if truthy show_idx then
         drawText (VNum (Z.of_nat i)) (curr_x + item_length / 2)
                  (item_y - item_min_height this / 4) (text_color this) None
       else ret tt) ;;
      ret (curr_x + item_length))
    element_ids curr_x ;;
  if is_string "list" type
  then drawProperties id (VStr "list") x y box_width
  else drawProperties id (VStr "tuple") x y box_width.

Definition drawSet (x y : Q) (id element_ids : jsval) : M unit :=
  let box_width := obj_x_padding this * 2 in
  box_width <-
    forEachOf (fun box_width v _ =>
      len <- getTextLength (VStr (if is_null v then "" else "id" ++ ToString v)) ;;
      ret (box_width + Qmax (item_min_width this) (len + 10)))
      element_ids box_width ;;
  let box_width := Qmax (obj_min_width this) box_width in
  n <- length_of element_ids ;;
  let box_width := box_width + ((n - 1) * item_min_width this) / 4 in
  drawRect x y box_width (obj_min_height this) None ;;
  let curr_x := x + item_min_width this / 2 in
  let item_y :=
    y + prop_min_height this
    + (obj_min_height this - prop_min_height this - item_min_height this) / 2 in
  let item_text_y := item_y + item_min_height this / 2 + font_size this / 4 in
  forEachOf (fun curr_x v i =>
      let idv := if is_null v then "" else "id" ++ ToString v in
      len <- getTextLength (VStr idv) ;;
      let item_length := Qmax (item_min_width this) (len + 10) in
      drawRect curr_x item_y item_length (item_min_height this) None ;;
      drawText (VStr idv) (curr_x + item_length / 2) item_text_y
               (id_color this) None ;;
      (if (0 <? i)%nat then
         drawText (VStr ",") (curr_x - item_min_width this / 8) item_text_y
                  (text_color this) None
       else ret tt) ;;
      ret (curr_x + item_length + item_min_height this / 4))
    element_ids curr_x ;;
  drawProperties id (VStr "set") x y box_width ;;
  drawText (VStr "{") (x + item_min_width this / 4) item_text_y
           (text_color this) None ;;
  drawText (VStr "}") (x + box_width - item_min_width this / 4) item_text_y
           (text_color this) None.

Definition drawDict (x y : Q) (id obj : jsval) : M unit :=
  let box_width := obj_min_width this in
  let box_height := prop_min_height this + item_min_height this / 2 in
  let curr_y := y + prop_min_height this + item_min_height this / 2 in
  st <-
    for_in (fun '(curr_y, box_width, box_height) k =>
      let idk := if is_null (VStr k) then "" else "id" ++ k in
      let idv := if is_null (VStr k) || is_null (get obj k)
                 then "" else "id" ++ ToString (get obj k) in
      len_k <- getTextLength (VStr (idk ++ ToString (VNum 5))) ;;
      let key_box := Qmax (item_min_width this) len_k in
      len_v <- getTextLength (VStr (idv ++ ToString (VNum 5))) ;;
      let value_box := Qmax (item_min_width this) len_v in
      drawRect (x + obj_x_padding this) curr_y key_box
               (item_min_height this) None ;;
      drawText (VStr idk) (x + item_min_width this + 2)
               (curr_y + item_min_height this / 2 + font_size this / 4)
               (id_color this) None ;;
      let curr_y := curr_y + item_min_height this * 1.5 in
      let box_width :=
        Qmax box_width
             (obj_x_padding this * 2 + key_box + value_box
              + 2 * font_size this) in
      let box_height := box_height + 1.5 * item_min_height this in
      ret (curr_y, box_width, box_height))
      obj (curr_y, box_width, box_height) ;;
  let '(_, box_width, box_height) := st in
  let curr_y := y + prop_min_height this + item_min_height this / 2 in
  for_in (fun curr_y k =>
      let idv := if is_null (VStr k) || is_null (get obj k)
                 then "" else "id" ++ ToString (get obj k) in
      len_v <- getTextLength (VStr (idv ++ ToString (VNum 5))) ;;
      let value_box := Qmax (item_min_width this) len_v in
      drawText (VStr ":") (x + box_width / 2)
               (curr_y + item_min_height this / 2 + font_size this / 4)
               (value_color this) None ;;
      drawRect (x + box_width / 2 + font_size this) curr_y value_box
               (item_min_height this) None ;;
      drawText (VStr idv) (x + box_width / 2 + font_size this + value_box / 2)
               (curr_y + item_min_height this / 2 + font_size this / 4)
               (id_color this) None ;;
      ret (curr_y + item_min_height this * 1.5))
    obj curr_y ;;
  drawRect x y box_width box_height None ;;
  drawProperties id (VStr "dict") x y box_width.

Definition drawClass (x y : Q) (name id attributes stack_frame : jsval)
  : M unit :=
  let box_width := obj_min_width this in
  let longest := 0 in
  longest <-
    for_in (fun longest attribute =>
      len <- getTextLength (VStr attribute) ;;
      ret (Qmax longest len))
      attributes longest ;;
  let box_width :=
    if Qgtb longest 0 then longest + item_min_width this * 3 else box_width in
  len_name <- getTextLength name ;;
  let box_width := Qmax box_width (prop_min_width this + len_name + 10) in
  keys <- Object_keys attributes ;;
  let count := inject_Z (Z.of_nat (List.length keys)) in
  let box_height :=
    if Qgtb count 0
    then ((item_min_width this * 3) / 2) * count
         + item_min_width this / 2 + prop_min_height this
    else obj_min_height this in
  drawRect x y box_width box_height None ;;
  let curr_y := y + prop_min_height this + item_min_height this / 2 in
  for_in (fun curr_y attribute =>
      let val := get attributes attribute in
      let idv := if is_null val then "" else "id" ++ ToString val in
      len <- getTextLength (VStr idv) ;;
      let attr_box := Qmax (item_min_width this) (len + 10) in
      drawRect (x + box_width - item_min_width this * 1.5) curr_y attr_box
               (item_min_height this) None ;;
      drawText (VStr attribute) (x + item_min_width this / 2)
               (curr_y + item_min_height this / 2 + font_size this / 4)
               (text_color this) (Some "begin") ;;
      drawText (VStr idv)
               (x + box_width - item_min_width this * 1.5 + attr_box / 2)
               (curr_y + item_min_height this / 2 + font_size this / 4)
               (id_color this) None ;;
      ret (curr_y + item_min_height this * 1.5))
    attributes curr_y ;;
  if truthy stack_frame then
    text_length <- getTextLength name ;;
    drawRect x y (text_length + 10) (prop_min_height this) None ;;
    drawText name (x + text_length / 2 + 5)
             (nearest_double
                (y + nearest_double (prop_min_height this * nearest_double 0.6)))
             (text_color this) None
  else drawProperties id name x y box_width.

Definition drawObject (x y : Q) (type id value show_indexes : jsval)
  : M unit :=
  if includes collections type then
    if is_string "dict" type then drawDict x y id value
    else if is_string "set" type then drawSet x y id value
    else if is_string "list" type || is_string "tuple" type
         then drawSequence x y type id value show_indexes
         else ret tt
  else drawPrimitive x y type id value.

(** The class body declares [drawAll] twice; the second declaration
    (reading [show_indexes] and [stack_frame]) replaces the first and is the
    method a [MemoryModel] has. *)
Definition drawAll (objects : jsval) : M unit :=
  for_in (fun _ i =>
      let item := get objects i in
      isClass <- getprop item "isClass" ;;
      if truthy isClass then
        x <- to_coord (get item "x") ;;
        y <- to_coord (get item "y") ;;
        drawClass x y (get item "name") (get item "id") (get item "value")
                  (get item "stack_frame")
      else
        x <- to_coord (get item "x") ;;
        y <- to_coord (get item "y") ;;
        drawObject x y (get item "name") (get item "id") (get item "value")
                   (get item "show_indexes"))
    objects tt.

(** [a || b]. *)
Definition or_else (a b : jsval) : jsval := if truthy a then a else b.

(** [for (const item of items)] where the body first assigns to a property
    of [item]: in strict code the assignment throws on a primitive, and so
    does reading the old value on null or undefined. *)
Definition for_of_objects (body : jsval -> M unit) (items : jsval) : M unit :=
  match items with
  | VArr l =>
      forEach (fun _ item _ =>
                 match item with
                 | VObj _ | VArr _ => body item
                 | _ => throw TypeError
                 end) l 0%nat tt
  | VStr EmptyString => ret tt
  | _ => throw TypeError
  end.

(** The first declaration of [drawAll], which the second one replaces: it
    reads [showIndexes] and [stackFrame].  The two values it assigns to
    [item] are kept in locals: nothing else reads them back from [item]. *)
Definition drawAll_replaced (items : jsval) : M unit :=
  for_of_objects (fun item =>
      let showIndexes := or_else (get item "showIndexes") (VBool false) in
      let stackFrame := or_else (get item "stackFrame") VNull in
      if truthy (get item "isClass") then
        x <- to_coord (get item "x") ;;
        y <- to_coord (get item "y") ;;
        drawClass x y (get item "name") (get item "id") (get item "value")
                  stackFrame
      else
        x <- to_coord (get item "x") ;;
        y <- to_coord (get item "y") ;;
        drawObject x y (get item "name") (get item "id") (get item "value")
                   showIndexes)
    items.

End MemoryModel.

(** ** The constructor *)

(** The constant [config] as the object whose keys the constructor
    enumerates. *)
Definition config_object : list (string * jsval) :=
  [ ("rect_style", VObj [("stroke", VStr "rgb(0, 0, 0)")]);
    ("text_color", VStr "rgb(0, 0, 0)");
    ("value_color", VStr "rgb(27, 14, 139)");
    ("id_color", VStr "rgb(150, 100, 28)");
    ("item_min_width", VNum 50);
    ("item_min_height", VNum 50);
    ("obj_min_width", VNum 200);
    ("obj_min_height", VNum 130);
    ("prop_min_width", VNum 60);
    ("prop_min_height", VNum 50);
    ("obj_x_padding", VNum 25);
    ("double_rect_sep", VNum 6);
    ("list_index_sep", VNum 20);
    ("font_size", VNum 20);
    ("browser", VBool false) ].

(** [o.hasOwnProperty(k)] when [o] has the method of [Object.prototype], for
    a key that is not the [length] of an array or a string. *)
Definition hasOwnProperty (o : jsval) (k : string) : bool :=
  existsb (fun kv => String.eqb (fst kv) k) (props o).

(** What the constructor leaves in a new [MemoryModel]: the size attributes of
    the root [svg] element and the fields copied from [config] or from the
    options. *)
Record instance : Type := {
  svg_width : string;
  svg_height : string;
  fields : list (string * jsval)
}.

(** [new MemoryModel(options)].  With a truthy [browser] option the document
    is the global of the host, which is not modelled; an own property named
    [hasOwnProperty] hides the method the loop calls. *)
Definition MemoryModel (options : jsval) : completion instance :=
  let options := or_else options (VObj []) in
  if truthy (get options "browser") then NotModelled
  else if hasOwnProperty options "hasOwnProperty" then Throw TypeError
  else Normal {|
    svg_width := ToString (or_else (get options "width") (VNum 800));
    svg_height := ToString (or_else (get options "height") (VNum 800));
    fields := map (fun kv => (fst kv,
                              if hasOwnProperty options (fst kv)
                              then get options (fst kv)
                              else snd kv))
                  config_object
  |}.

Definition field_string (v : jsval) : option string :=
  match v with VStr s => Some s | _ => None end.
Definition field_number (v : jsval) : option Q :=
  match v with VNum n => Some (inject_Z n) | _ => None end.
Definition field_bool (v : jsval) : option bool :=
  match v with VBool b => Some b | _ => None end.
Definition field_stroke (v : jsval) : option string :=
  match v with VObj o => field_string (lookup "stroke" o) | _ => None end.

Definition opt_bind {A B : Type} (o : option A) (f : A -> option B) : option B :=
  match o with Some a => f a | None => None end.

(** The fields as the typed configuration the methods read, when every field
    has the type of its default. *)
Definition Config_of (f : list (string * jsval)) : option Config :=
  opt_bind (field_stroke (lookup "rect_style" f)) (fun rs =>
  opt_bind (field_string (lookup "text_color" f)) (fun tc =>
  opt_bind (field_string (lookup "value_color" f)) (fun vc =>
  opt_bind (field_string (lookup "id_color" f)) (fun ic =>
  opt_bind (field_number (lookup "item_min_width" f)) (fun imw =>
  opt_bind (field_number (lookup "item_min_height" f)) (fun imh =>
  opt_bind (field_number (lookup "obj_min_width" f)) (fun omw =>
  opt_bind (field_number (lookup "obj_min_height" f)) (fun omh =>
  opt_bind (field_number (lookup "prop_min_width" f)) (fun pmw =>
  opt_bind (field_number (lookup "prop_min_height" f)) (fun pmh =>
  opt_bind (field_number (lookup "obj_x_padding" f)) (fun pad =>
  opt_bind (field_number (lookup "double_rect_sep" f)) (fun sep =>
  opt_bind (field_number (lookup "list_index_sep" f)) (fun lis =>
  opt_bind (field_number (lookup "font_size" f)) (fun fs =>
  opt_bind (field_bool (lookup "browser" f)) (fun br =>
  Some {| rect_style := rs; text_color := tc; value_color := vc;
          id_color := ic; item_min_width := imw; item_min_height := imh;
          obj_min_width := omw; obj_min_height := omh; prop_min_width := pmw;
          prop_min_height := pmh; obj_x_padding := pad;
          double_rect_sep := sep; list_index_sep := lis; font_size := fs;
          browser := br |}))))))))))))))).

(** ** Reading the surface *)

Definition is_rect (n : node) : bool :=
  match n with Rect _ _ _ _ _ => true | Text _ _ _ _ _ _ => false end.

Definition rects (s : svg) : svg := filter is_rect s.

Definition texts (s : svg) : list string :=
  flat_map (fun n => match n with
                     | Text data _ _ _ _ _ => [data]
                     | Rect _ _ _ _ _ => []
                     end) s.

(** The same node with every number in lowest terms. *)
Definition reduced (n : node) : node :=
  match n with
  | Rect x y w h st => Rect (Qred x) (Qred y) (Qred w) (Qred h) st
  | Text d x y fill anchor fs => Text d (Qred x) (Qred y) fill anchor (Qred fs)
  end.

Definition y_of (n : node) : Q :=
  match n with Rect _ y _ _ _ => y | Text _ _ y _ _ _ => y end.

(** The positions [start], [start + pitch], ... of [k] stacked rows. *)
Definition rows (start pitch : Q) (k : nat) : list Q :=
  map (fun i => start + inject_Z (Z.of_nat i) * pitch) (seq 0 k).

Definition x_of (n : node) : Q :=
  match n with Rect x _ _ _ _ => x | Text _ x _ _ _ _ => x end.


Definition height_of (n : node) : Q :=
  match n with Rect _ _ _ h _ => h | Text _ _ _ _ _ _ => 0 end.


(** ** What the methods append

    The nodes each method appends when it completes normally, written with
    the locals of the source. *)

Local Open Scope list_scope.

(** What a loop leaves in the locals, and what it appends, when every
    iteration completes normally. *)
Fixpoint loop_state {A St : Type} (next : St -> A -> nat -> St)
         (l : list A) (i : nat) (st : St) : St :=
  match l with
  | [] => st
  | v :: l' => loop_state next l' (S i) (next st v i)
  end.

Fixpoint loop_out {A St : Type} (next : St -> A -> nat -> St)
         (out : St -> A -> nat -> svg) (l : list A) (i : nat) (st : St) : svg :=
  match l with
  | [] => []
  | v :: l' => out st v i ++ loop_out next out l' (S i) (next st v i)
  end.

Section Nodes.

Variable this : Config.

(** The label of a referenced id: the local [idv] of the source. *)
Definition idv (v : jsval) : string :=
  (if is_null v then "" else "id" ++ ToString v)%string.

(** The local [item_length] of [drawSequence] and [drawSet]. *)
Definition item_length (v : jsval) : Q :=
  Qmax (item_min_width this) (textLength (idv v) + 10).

(** The local [id_box] and [type_box] of [drawProperties]. *)
Definition id_box (id : jsval) : Q :=
  Qmax (prop_min_width this) (textLength ("id" ++ ToString id)%string + 10).
Definition type_box (t : string) : Q :=
  Qmax (prop_min_width this) (textLength t + 10).

(** The four nodes [drawProperties] appends for a type that is a string. *)
Definition properties (id : jsval) (t : string) (x y width : Q) : svg :=
  [ newElement this (VStr (idv id)) (x + id_box id / 2)
               (y + font_size this * 1.5) (id_color this) None;
    newElement this (VStr t) (x + width - type_box t / 2)
               (y + font_size this * 1.5) (value_color this) None;
    rectangle this x y (id_box id) (prop_min_height this) None;
    rectangle this (x + width - type_box t) y (type_box t)
              (prop_min_height this) None ].

(** The local [box_width] of [drawPrimitive]. *)
Definition primitive_width (value : jsval) : Q :=
  Qmax (obj_min_width this) (textLength (ToString value) + obj_x_padding this).

(** The enclosing rectangle of an immutable value. *)
Definition double_box (x y width height : Q) : node :=
  rectangle this (x - double_rect_sep this) (y - double_rect_sep this)
            (width + 2 * double_rect_sep this)
            (height + 2 * double_rect_sep this) None.

(** The text [drawPrimitive] shows for a value: the local [display_text]. *)
Definition display_text (t : string) (value : jsval) : jsval :=
  if String.eqb t "bool"
  then VStr (if truthy value then "True" else "False")
  else of_option (JSON_stringify value).

Definition primitive_nodes (x y : Q) (t : string) (id value : jsval) : svg :=
  (rectangle this x y (primitive_width value) (obj_min_height this) None
   :: (if includes immutable (VStr t)
       then [double_box x y (primitive_width value) (obj_min_height this)]
       else [])
   ++ (if negb (is_null value) && negb (is_undefined value)
       then [newElement this (display_text t value)
                        (x + primitive_width value / 2)
                        (y + (obj_min_height this + prop_min_height this) / 2)
                        (value_color this) None]
       else [])
   ++ properties id t x y (primitive_width value)).

(** *** Sequences *)

(** The local [box_width] of [drawSequence] once the elements are added and
    the minimum is applied. *)
Definition sequence_width (l : list jsval) : Q :=
  Qmax (obj_min_width this)
       (fold_left (fun box_width v => box_width + item_length v) l
                  (obj_x_padding this * 2)).

Definition sequence_height (show_idx : jsval) : Q :=
  if truthy show_idx
  then obj_min_height this + list_index_sep this
  else obj_min_height this.

(** The local [item_y] of [drawSequence]. *)
Definition sequence_item_y (y : Q) (show_idx : jsval) : Q :=
  let item_y :=
    y + prop_min_height this
    + (obj_min_height this - prop_min_height this - item_min_height this) / 2 in
  if truthy show_idx then item_y + list_index_sep this else item_y.

(** What one iteration of the second loop of [drawSequence] appends. *)
Definition sequence_item (item_y : Q) (show_idx : jsval)
           (curr_x : Q) (v : jsval) (i : nat) : svg :=
  [ rectangle this curr_x item_y (item_length v) (item_min_height this) None;
    newElement this (VStr (idv v)) (curr_x + item_length v / 2)
               (item_y + item_min_height this / 2 + font_size this / 4)
               (id_color this) None ]
  ++ (if truthy show_idx
      then [newElement this (VNum (Z.of_nat i)) (curr_x + item_length v / 2)
                       (item_y - item_min_height this / 4)
                       (text_color this) None]
      else []).

Definition sequence_items (x y : Q) (show_idx : jsval) (l : list jsval) : svg :=
  loop_out (fun curr_x v _ => curr_x + item_length v)
           (sequence_item (sequence_item_y y show_idx) show_idx)
           l 0%nat (x + item_min_width this / 2).

(** The labels of the elements, each followed by its index when indices are
    shown. *)
Definition sequence_labels (show_idx : jsval) (i : nat) (l : list jsval)
  : list string :=
  flat_map (fun iv => idv (snd iv)
                      :: (if truthy show_idx
                          then [string_of_Z (Z.of_nat (fst iv))]
                          else []))
           (indexed i l).

Definition sequence_nodes (x y : Q) (type id : jsval) (l : list jsval)
           (show_idx : jsval) : svg :=
  rectangle this x y (sequence_width l) (sequence_height show_idx) None
  :: (if includes immutable type
      then [double_box x y (sequence_width l) (sequence_height show_idx)]
      else [])
  ++ sequence_items x y show_idx l
  ++ properties id (if is_string "list" type then "list" else "tuple")
                x y (sequence_width l).

(** *** Sets *)

Definition set_width (l : list jsval) : Q :=
  sequence_width l
  + ((inject_Z (Z.of_nat (List.length l)) - 1) * item_min_width this) / 4.

Definition set_item_y (y : Q) : Q :=
  y + prop_min_height this
  + (obj_min_height this - prop_min_height this - item_min_height this) / 2.

Definition set_text_y (y : Q) : Q :=
  set_item_y y + item_min_height this / 2 + font_size this / 4.

(** What one iteration of the second loop of [drawSet] appends. *)
Definition set_item (y : Q) (curr_x : Q) (v : jsval) (i : nat) : svg :=
  [ rectangle this curr_x (set_item_y y) (item_length v)
              (item_min_height this) None;
    newElement this (VStr (idv v)) (curr_x + item_length v / 2)
               (set_text_y y) (id_color this) None ]
  ++ (if (0 <? i)%nat
      then [newElement this (VStr ",") (curr_x - item_min_width this / 8)
                       (set_text_y y) (text_color this) None]
      else []).

Definition set_items (x y : Q) (l : list jsval) : svg :=
  loop_out (fun curr_x v _ => curr_x + item_length v + item_min_height this / 4)
           (set_item y) l 0%nat (x + item_min_width this / 2).

Definition set_braces (x y width : Q) : svg :=
  [ newElement this (VStr "{") (x + item_min_width this / 4)
               (set_text_y y) (text_color this) None;
    newElement this (VStr "}") (x + width - item_min_width this / 4)
               (set_text_y y) (text_color this) None ].

Definition set_nodes (x y : Q) (id : jsval) (l : list jsval) : svg :=
  rectangle this x y (set_width l) (obj_min_height this) None
  :: set_items x y l
  ++ properties id "set" x y (set_width l)
  ++ set_braces x y (set_width l).

(** *** Mappings *)

(** The locals [key_box] and [value_box] of [drawDict]: the measured string
    is the label with the digit 5 appended. *)
Definition key_box (k : string) : Q :=
  Qmax (item_min_width this)
       (textLength (("id" ++ k) ++ ToString (VNum 5))%string).
Definition value_box (v : jsval) : Q :=
  Qmax (item_min_width this) (textLength (idv v ++ ToString (VNum 5))%string).

(** The locals [(curr_y, box_width, box_height)] after one iteration of the
    first loop of [drawDict]. *)
Definition dict_next (obj : jsval) (st : Q * Q * Q) (kv : string * jsval)
           (_ : nat) : Q * Q * Q :=
  let '(curr_y, box_width, box_height) := st in
  (curr_y + item_min_height this * 1.5,
   Qmax box_width
        (obj_x_padding this * 2 + key_box (fst kv)
         + value_box (get obj (fst kv)) + 2 * font_size this),
   box_height + 1.5 * item_min_height this).

(** The key box and key label one iteration of the first loop appends. *)
Definition dict_key (x : Q) (st : Q * Q * Q) (kv : string * jsval) (_ : nat)
  : svg :=
  let '(curr_y, _, _) := st in
  [ rectangle this (x + obj_x_padding this) curr_y (key_box (fst kv))
              (item_min_height this) None;
    newElement this (VStr ("id" ++ fst kv)%string) (x + item_min_width this + 2)
               (curr_y + item_min_height this / 2 + font_size this / 4)
               (id_color this) None ].

(** The colon, value box and value label one iteration of the second loop
    appends. *)
Definition dict_value (obj : jsval) (x box_width : Q) (curr_y : Q)
           (kv : string * jsval) (_ : nat) : svg :=
  let v := get obj (fst kv) in
  [ newElement this (VStr ":") (x + box_width / 2)
               (curr_y + item_min_height this / 2 + font_size this / 4)
               (value_color this) None;
    rectangle this (x + box_width / 2 + font_size this) curr_y (value_box v)
              (item_min_height this) None;
    newElement this (VStr (idv v))
               (x + box_width / 2 + font_size this + value_box v / 2)
               (curr_y + item_min_height this / 2 + font_size this / 4)
               (id_color this) None ].

Definition dict_start (y : Q) : Q :=
  y + prop_min_height this + item_min_height this / 2.

(** The locals of [drawDict] after its first loop. *)
Definition dict_locals (y : Q) (obj : jsval) : Q * Q * Q :=
  loop_state (dict_next obj) (props obj) 0%nat
             (dict_start y, obj_min_width this,
              prop_min_height this + item_min_height this / 2).

Definition dict_width (obj : jsval) : Q := snd (fst (dict_locals 0 obj)).
Definition dict_height (obj : jsval) : Q := snd (dict_locals 0 obj).

Definition dict_keys (x y : Q) (obj : jsval) : svg :=
  loop_out (dict_next obj) (dict_key x) (props obj) 0%nat
           (dict_start y, obj_min_width this,
            prop_min_height this + item_min_height this / 2).

Definition dict_values (x y : Q) (obj : jsval) : svg :=
  loop_out (fun curr_y _ _ => curr_y + item_min_height this * 1.5)
           (dict_value obj x (dict_width obj)) (props obj) 0%nat (dict_start y).

Definition dict_nodes (x y : Q) (id obj : jsval) : svg :=
  dict_keys x y obj
  ++ dict_values x y obj
  ++ rectangle this x y (dict_width obj) (dict_height obj) None
  :: properties id "dict" x y (dict_width obj).

(** *** Class instances and stack frames *)

(** The local [longest] of [drawClass] after its first loop. *)
Definition longest (A : list (string * jsval)) : Q :=
  fold_left (fun longest kv => Qmax longest (textLength (fst kv))) A 0.

Definition class_width (name : string) (A : list (string * jsval)) : Q :=
  Qmax (if Qgtb (longest A) 0
        then longest A + item_min_width this * 3
        else obj_min_width this)
       (prop_min_width this + textLength name + 10).

Definition class_height (A : list (string * jsval)) : Q :=
  let count := inject_Z (Z.of_nat (List.length (map fst A))) in
  if Qgtb count 0
  then ((item_min_width this * 3) / 2) * count
       + item_min_width this / 2 + prop_min_height this
  else obj_min_height this.

(** What one iteration of the second loop of [drawClass] appends. *)
Definition class_item (A : list (string * jsval)) (x box_width : Q)
           (curr_y : Q) (kv : string * jsval) (_ : nat) : svg :=
  let val := lookup (fst kv) A in
  let attr_box := Qmax (item_min_width this) (textLength (idv val) + 10) in
  [ rectangle this (x + box_width - item_min_width this * 1.5) curr_y attr_box
              (item_min_height this) None;
    newElement this (VStr (fst kv)) (x + item_min_width this / 2)
               (curr_y + item_min_height this / 2 + font_size this / 4)
               (text_color this) (Some "begin"%string);
    newElement this (VStr (idv val))
               (x + box_width - item_min_width this * 1.5 + attr_box / 2)
               (curr_y + item_min_height this / 2 + font_size this / 4)
               (id_color this) None ].

Definition class_items (x y : Q) (name : string) (A : list (string * jsval))
  : svg :=
  loop_out (fun curr_y _ _ => curr_y + item_min_height this * 1.5)
           (class_item A x (class_width name A)) A 0%nat (dict_start y).

(** The name box of a stack frame, or the id and type boxes of an object. *)
Definition class_label (x y : Q) (name : string) (id stack_frame : jsval)
           (box_width : Q) : svg :=
  if truthy stack_frame
  then [ rectangle this x y (textLength name + 10) (prop_min_height this) None;
         newElement this (VStr name) (x + textLength name / 2 + 5)
                    (nearest_double
                       (y + nearest_double
                              (prop_min_height this * nearest_double 0.6)))
                    (text_color this) None ]
  else properties id name x y box_width.

Definition class_nodes (x y : Q) (name : string) (id : jsval)
           (A : list (string * jsval)) (stack_frame : jsval) : svg :=
  rectangle this x y (class_width name A) (class_height A) None
  :: class_items x y name A
  ++ class_label x y name id stack_frame (class_width name A).

End Nodes.


(** The body of the loop of [drawAll], on one item. *)
Definition drawAll_item (this : Config) (item : jsval) : M unit :=
  isClass <- getprop item "isClass" ;;
  if truthy isClass then
    x <- to_coord (get item "x") ;;
    y <- to_coord (get item "y") ;;
    drawClass this x y (get item "name") (get item "id") (get item "value")
              (get item "stack_frame")
  else
    x <- to_coord (get item "x") ;;
    y <- to_coord (get item "y") ;;
    drawObject this x y (get item "name") (get item "id") (get item "value")
               (get item "show_indexes").

(** A computation that completes the same way and appends the same nodes
    [out], all of them satisfying [P], whatever the surface holds. *)
Definition draws (P : node -> Prop) {A : Type} (m : M A) : Prop :=
  exists c out, Forall P out /\ forall s, m s = (c, s ++ out).

(** A node built from the fields of [this]: a rectangle in its style, a text
    in one of its three colours, anchored in the middle or at the start, in
    its font size. *)
Definition styled (this : Config) (n : node) : Prop :=
  match n with
  | Rect _ _ _ _ st => st = rect_style this
  | Text _ _ _ fill anchor fs =>
      In fill [text_color this; value_color this; id_color this]
      /\ In anchor ["middle"%string; "begin"%string]
      /\ fs = font_size this
  end.

(** ** Running method bodies *)

Ltac run_body :=
  cbv beta iota zeta delta
      [bind ret throw not_modelled appendChild drawRect drawText
       getTextLength length_of Object_keys getprop to_coord].

Ltac flatten_svg :=
  repeat rewrite <- app_assoc; simpl app.

Lemma forEach_run {A St : Type} (body : St -> A -> nat -> M St)
      (next : St -> A -> nat -> St) (out : St -> A -> nat -> svg) :
  (forall st v i s, body st v i s = (Normal (next st v i), (s ++ out st v i))) ->
  forall l i st s,
    forEach body l i st s
    = (Normal (loop_state next l i st), (s ++ loop_out next out l i st)).
Proof.
  intros Hbody l; induction l as [|v l IH]; intros i st s; simpl.
  - unfold ret; now rewrite app_nil_r.
  - unfold bind; rewrite Hbody, IH; now rewrite <- app_assoc.
Qed.

Lemma loop_state_fold {A St : Type} (f : St -> A -> St) (l : list A) :
  forall i st, loop_state (fun st v _ => f st v) l i st = fold_left f l st.
Proof. induction l as [|v l IH]; intros i st; simpl; [reflexivity | apply IH]. Qed.

Lemma loop_out_nil {A St : Type} (next : St -> A -> nat -> St) (l : list A) :
  forall i st, loop_out next (fun _ _ _ => []) l i st = [].
Proof. induction l as [|v l IH]; intros i st; simpl; [reflexivity | apply IH]. Qed.

Section Runs.

Variable this : Config.

Lemma drawProperties_run (id : jsval) (t : string) (x y width : Q) (s : svg) :
  drawProperties this id (VStr t) x y width s
  = (Normal tt, (s ++ properties this id t x y width)).
Proof.
  unfold drawProperties, properties, idv, id_box, type_box; run_body.
  flatten_svg. destruct id; reflexivity.
Qed.

(** With a type that is null or undefined, [drawProperties] throws before it
    draws anything. *)
Lemma drawProperties_undefined (id : jsval) (x y width : Q) (s : svg) :
  drawProperties this id VUndefined x y width s = (Throw TypeError, s).
Proof. reflexivity. Qed.

Lemma drawPrimitive_run (x y : Q) (t : string) (id value : jsval) (s : svg) :
  drawPrimitive this x y (VStr t) id value s
  = (Normal tt, (s ++ primitive_nodes this x y t id value)).
Proof.
  unfold drawPrimitive, primitive_nodes, double_box, display_text.
  unfold is_string. run_body.
  destruct (includes immutable (VStr t));
    destruct (negb (is_null value) && negb (is_undefined value));
    run_body; rewrite drawProperties_run; flatten_svg; reflexivity.
Qed.

Lemma drawSequence_run (x y : Q) (type id : jsval) (l : list jsval)
      (show_idx : jsval) (s : svg) :
  drawSequence this x y type id (VArr l) show_idx s
  = (Normal tt, s ++ sequence_nodes this x y type id l show_idx).
Proof.
  unfold drawSequence, sequence_nodes, sequence_items, forEachOf. run_body.
  rewrite (forEach_run _ (fun box_width v _ => box_width + item_length this v)
                       (fun _ _ _ => []))
    by (intros; now rewrite app_nil_r).
  rewrite loop_state_fold, loop_out_nil, app_nil_r.
  fold (sequence_width this l) (sequence_height this show_idx) (sequence_item_y this y show_idx).
  destruct (includes immutable type); cbv beta iota;
    (rewrite (forEach_run _ (fun curr_x v _ => curr_x + item_length this v)
                (sequence_item this (sequence_item_y this y show_idx) show_idx))
      by (intros; unfold sequence_item; destruct (truthy show_idx);
          unfold appendChild; flatten_svg; reflexivity));
    destruct (is_string "list" type); rewrite drawProperties_run;
    flatten_svg; reflexivity.
Qed.

(** A value that is not an array has no [forEach]: nothing is drawn. *)
Lemma drawSequence_not_array (x y : Q) (type id v show_idx : jsval) (s : svg) :
  (forall l, v <> VArr l) ->
  drawSequence this x y type id v show_idx s = (Throw TypeError, s).
Proof. intros H; destruct v; try reflexivity. now destruct (H l). Qed.

Lemma drawSet_run (x y : Q) (id : jsval) (l : list jsval) (s : svg) :
  drawSet this x y id (VArr l) s = (Normal tt, s ++ set_nodes this x y id l).
Proof.
  unfold drawSet, set_nodes, set_items, set_braces, forEachOf. run_body.
  rewrite (forEach_run _ (fun box_width v _ => box_width + item_length this v)
                       (fun _ _ _ => []))
    by (intros; now rewrite app_nil_r).
  rewrite loop_state_fold, loop_out_nil, app_nil_r.
  fold (sequence_width this l). fold (set_width this l).
  fold (set_item_y this y). fold (set_text_y this y).
  rewrite (forEach_run _
             (fun curr_x v _ => curr_x + item_length this v + item_min_height this / 4)
             (set_item this y))
    by (intros st v i s0; unfold set_item; destruct (0 <? i)%nat;
        unfold appendChild; flatten_svg; reflexivity).
  rewrite drawProperties_run. flatten_svg. reflexivity.
Qed.

Lemma dict_locals_y (obj : jsval) (l : list (string * jsval)) :
  forall i cy1 cy2 bw bh,
    snd (fst (loop_state (dict_next this obj) l i (cy1, bw, bh)))
    = snd (fst (loop_state (dict_next this obj) l i (cy2, bw, bh)))
    /\ snd (loop_state (dict_next this obj) l i (cy1, bw, bh))
       = snd (loop_state (dict_next this obj) l i (cy2, bw, bh)).
Proof.
  induction l as [|kv l IH]; intros; simpl; [split; reflexivity|]. apply IH.
Qed.

Lemma drawDict_run (x y : Q) (id obj : jsval) (s : svg) :
  drawDict this x y id obj s = (Normal tt, s ++ dict_nodes this x y id obj).
Proof.
  unfold drawDict, dict_nodes, dict_keys, dict_values, for_in. run_body.
  rewrite (forEach_run _ (dict_next this obj) (dict_key this x))
    by (intros [[cy bw] bh] kv i s0; unfold dict_key, dict_next, key_box, value_box, idv;
        simpl is_null; simpl orb; 
        flatten_svg; reflexivity).
  fold (dict_start this y).
  pose proof (dict_locals_y obj (props obj) 0%nat (dict_start this y) (dict_start this 0)
                (obj_min_width this)
                (prop_min_height this + item_min_height this / 2)) as [HW HH].
  fold (dict_locals this 0 obj) in HW, HH. fold (dict_width this obj) in HW.
  fold (dict_height this obj) in HH.
  destruct (loop_state (dict_next this obj) (props obj) 0%nat _) as [[cy W] H].
  simpl in HW, HH; subst W H.
  rewrite (forEach_run _ (fun curr_y _ _ => curr_y + item_min_height this * 1.5)
             (dict_value this obj x (dict_width this obj)))
    by (intros cy0 kv i s0; unfold dict_value, value_box, idv;
        simpl is_null; simpl orb; flatten_svg; reflexivity).
  rewrite drawProperties_run. flatten_svg. reflexivity.
Qed.

Lemma drawClass_run (x y : Q) (name : string) (id : jsval)
      (A : list (string * jsval)) (stack_frame : jsval) (s : svg) :
  drawClass this x y (VStr name) id (VObj A) stack_frame s
  = (Normal tt, s ++ class_nodes this x y name id A stack_frame).
Proof.
  unfold drawClass, class_nodes, class_items, class_label, for_in. run_body.
  simpl props.
  rewrite (forEach_run _ (fun longest kv _ => Qmax longest (textLength (fst kv)))
                       (fun _ _ _ => []))
    by (intros; now rewrite app_nil_r).
  rewrite loop_state_fold, loop_out_nil, app_nil_r.
  fold (longest A). fold (class_width this name A). fold (class_height this A).
  fold (dict_start this y).
  rewrite (forEach_run _ (fun curr_y _ _ => curr_y + item_min_height this * 1.5)
             (class_item this A x (class_width this name A)))
    by (intros cy0 kv i s0; unfold class_item, idv, get; simpl props;
        flatten_svg; reflexivity).
  destruct (truthy stack_frame).
  - flatten_svg. reflexivity.
  - rewrite drawProperties_run. flatten_svg. reflexivity.
Qed.
End Runs.

(** ** Lists of nodes, strings and rows *)


Lemma texts_app (a b : svg) : texts (a ++ b) = texts a ++ texts b.
Proof. apply flat_map_app. Qed.

Lemma length_append (s1 s2 : string) :
  String.length (s1 ++ s2)%string = (String.length s1 + String.length s2)%nat.
Proof. induction s1 as [|c s1 IH]; simpl; [reflexivity | now rewrite IH]. Qed.

Lemma textLength_le (s1 s2 : string) :
  (String.length s1 <= String.length s2)%nat -> textLength s1 <= textLength s2.
Proof.
  intros H. unfold textLength. apply Qmult_le_compat_r; [|discriminate].
  rewrite <- Zle_Qle. lia.
Qed.

Lemma textLength_append (s1 s2 : string) :
  textLength (s1 ++ s2)%string == textLength s1 + textLength s2.
Proof.
  unfold textLength. rewrite length_append, Nat2Z.inj_add, inject_Z_plus. ring.
Qed.



Lemma Forall2_Qeq_trans (a b c : list Q) :
  Forall2 Qeq a b -> Forall2 Qeq b c -> Forall2 Qeq a c.
Proof.
  intros H; revert c; induction H; intros c Hc; inversion Hc; subst;
    constructor; [etransitivity; eassumption | auto].
Qed.

Lemma rows_S (start pitch : Q) (k : nat) :
  Forall2 Qeq (start :: rows (start + pitch) pitch k) (rows start pitch (S k)).
Proof.
  unfold rows. cbn [seq map]. rewrite <- seq_shift, map_map.
  constructor.
  - simpl. ring.
  - induction (seq 0 k) as [|j js IH]; cbn [map]; constructor; [|exact IH].
    rewrite Nat2Z.inj_succ. unfold Z.succ. rewrite inject_Z_plus. ring.
Qed.

Lemma Qgtb_count (n : nat) :
  Qgtb (inject_Z (Z.of_nat n)) 0 = match n with O => false | S _ => true end.
Proof.
  destruct n as [|n]; [reflexivity|].
  unfold Qgtb.
  destruct (Qcompare_spec (inject_Z (Z.of_nat (S n))) 0) as [H|H|H];
    try reflexivity; exfalso.
  - unfold Qeq in H; simpl in H; lia.
  - unfold Qlt in H; simpl in H; lia.
Qed.

(** ** What each kind of entity draws *)

Section Facts.

Variable this : Config.




Lemma sequence_items_texts (iy : Q) (show_idx : jsval) (l : list jsval) :
  forall i cx,
    texts (loop_out (fun curr_x v _ => curr_x + item_length this v)
                    (sequence_item this iy show_idx) l i cx)
    = sequence_labels show_idx i l.
Proof.
  induction l as [|v l IH]; intros i cx; [reflexivity|].
  cbn [loop_out]. rewrite texts_app, IH. unfold sequence_labels.
  cbn [indexed flat_map]. unfold sequence_item.
  destruct (truthy show_idx); reflexivity.
Qed.







Lemma dict_keys_rows (obj : jsval) (x : Q) (l : list (string * jsval)) :
  forall i cy bw bh,
    Forall2 Qeq
      (map y_of (rects (loop_out (dict_next this obj) (dict_key this x) l i
                                 (cy, bw, bh))))
      (rows cy (1.5 * item_min_height this) (List.length l)).
Proof.
  induction l as [|kv l IH]; intros i cy bw bh; simpl.
  - constructor.
  - eapply Forall2_Qeq_trans; [|apply rows_S].
    constructor; [reflexivity|].
    eapply Forall2_Qeq_trans; [apply IH|].
    unfold rows. induction (seq 0 (List.length l)); simpl; constructor; auto.
    ring.
Qed.

Lemma dict_values_rows (obj : jsval) (x w : Q) (l : list (string * jsval)) :
  forall i cy,
    Forall2 Qeq
      (map y_of (rects (loop_out
                          (fun curr_y _ _ => curr_y + item_min_height this * 1.5)
                          (dict_value this obj x w) l i cy)))
      (rows cy (1.5 * item_min_height this) (List.length l)).
Proof.
  induction l as [|kv l IH]; intros i cy; simpl.
  - constructor.
  - eapply Forall2_Qeq_trans; [|apply rows_S].
    constructor; [reflexivity|].
    eapply Forall2_Qeq_trans; [apply IH|].
    unfold rows. induction (seq 0 (List.length l)); simpl; constructor; auto.
    ring.
Qed.

Lemma dict_keys_texts (obj : jsval) (x : Q) (l : list (string * jsval)) :
  forall i st,
    texts (loop_out (dict_next this obj) (dict_key this x) l i st)
    = map (fun kv => ("id" ++ fst kv)%string) l.
Proof.
  induction l as [|kv l IH]; intros i [[cy bw] bh]; simpl; [reflexivity|].
  now rewrite IH.
Qed.

Lemma dict_values_texts (obj : jsval) (x w : Q) (l : list (string * jsval)) :
  forall i cy,
    texts (loop_out (fun curr_y _ _ => curr_y + item_min_height this * 1.5)
                    (dict_value this obj x w) l i cy)
    = flat_map (fun kv => [":"%string; idv (get obj (fst kv))]) l.
Proof.
  induction l as [|kv l IH]; intros i cy; simpl; [reflexivity|].
  now rewrite IH.
Qed.



Lemma class_height_cases (A : list (string * jsval)) :
  class_height this A
  = match A with
    | [] => obj_min_height this
    | _ :: _ => ((item_min_width this * 3) / 2)
                * inject_Z (Z.of_nat (List.length A))
                + item_min_width this / 2 + prop_min_height this
    end.
Proof.
  unfold class_height. rewrite Qgtb_count, length_map. now destruct A.
Qed.

End Facts.

(** ** The claims *)

Section Claims.

Variable this : Config.

(** What [drawDict] draws.  A mapping with no pair draws an outer box of
    width [obj_min_width] and of height [prop_min_height + item_min_height / 2]
    (the header and half an item: [obj_min_height] is not read); a mapping
    with the pairs [o] draws, in input order, one key box labelled [id<key>]
    per pair, then a colon and one value box labelled [id<value>] (blank for
    null) per pair, the i-th key box and the i-th value box at the height
    [y + prop_min_height + item_min_height / 2 + i * (1.5 * item_min_height)],
    and then the outer box and the id and type boxes. *)
Theorem drawDict_boxes (x y : Q) (id : jsval) (o : list (string * jsval))
        (s : svg) :
  drawDict this x y id (VObj []) s
  = (Normal tt,
     s ++ Rect x y (obj_min_width this)
                 (prop_min_height this + item_min_height this / 2)
                 (rect_style this)
            :: properties this id "dict" x y (obj_min_width this))
  /\ exists keys values W H,
      drawDict this x y id (VObj o) s
      = (Normal tt, s ++ keys ++ values
                      ++ Rect x y W H (rect_style this)
                      :: properties this id "dict" x y W)
      /\ texts keys = map (fun kv => ("id" ++ fst kv)%string) o
      /\ texts values
         = flat_map (fun kv => [":"%string; idv (lookup (fst kv) o)]) o
      /\ Forall2 Qeq (map y_of (rects keys))
                 (rows (y + prop_min_height this + item_min_height this / 2)
                       (1.5 * item_min_height this) (List.length o))
      /\ Forall2 Qeq (map y_of (rects values))
                 (rows (y + prop_min_height this + item_min_height this / 2)
                       (1.5 * item_min_height this) (List.length o)).
Proof.
  split; [apply drawDict_run|].
  exists (dict_keys this x y (VObj o)), (dict_values this x y (VObj o)),
         (dict_width this (VObj o)), (dict_height this (VObj o)).
  split; [apply drawDict_run|].
  split; [apply dict_keys_texts|]. split; [apply dict_values_texts|].
  split; [apply dict_keys_rows | apply dict_values_rows].
Qed.

(** The outer box [drawClass] draws for a class instance or stack frame
    named [name] with attributes [A] has width
    [max(B, prop_min_width + measure(name) + 10)], where [B] is
    [longest + 3 * item_min_width] when the longest attribute name has a
    positive width [longest] and [obj_min_width] otherwise; so the width is
    the three-way maximum with [obj_min_width] whenever [longest > 0] and
    [obj_min_width <= longest + 3 * item_min_width].  Its height is
    [obj_min_height] when [A] is empty and otherwise
    [(1.5 * item_min_width) * |A| + item_min_width / 2 + prop_min_height]. *)
Theorem drawClass_box (x y : Q) (name : string) (id : jsval)
        (A : list (string * jsval)) (stack_frame : jsval) (s : svg) :
  let longest :=
    fold_left (fun longest kv => Qmax longest (textLength (fst kv))) A 0 in
  let W :=
    Qmax (if Qgtb longest 0
          then longest + item_min_width this * 3
          else obj_min_width this)
         (prop_min_width this + textLength name + 10) in
  let H :=
    match A with
    | [] => obj_min_height this
    | _ :: _ => ((item_min_width this * 3) / 2)
                * inject_Z (Z.of_nat (List.length A))
                + item_min_width this / 2 + prop_min_height this
    end in
  (exists rest,
      drawClass this x y (VStr name) id (VObj A) stack_frame s
      = (Normal tt, s ++ Rect x y W H (rect_style this) :: rest))
  /\ (Qgtb longest 0 = true ->
      obj_min_width this <= longest + 3 * item_min_width this ->
      W == Qmax (obj_min_width this)
                (Qmax (longest + 3 * item_min_width this)
                      (textLength name + prop_min_width this + 10)))
  /\ (A <> [] ->
      H == (1.5 * item_min_width this) * inject_Z (Z.of_nat (List.length A))
           + item_min_width this / 2 + prop_min_height this).
Proof.
  intros lg W H. split; [|split].
  - rewrite drawClass_run. unfold class_nodes, rectangle.
    rewrite class_height_cases. eexists. reflexivity.
  - intros Hg Hle. unfold W. rewrite Hg, Q.max_assoc.
    rewrite (Q.max_r (obj_min_width this)) by exact Hle.
    apply Q.max_compat; ring.
  - intros HA. unfold H. destruct A; [congruence|]. field.
Qed.





(** C10: [drawProperties] with a null id and a type that is a string draws
    the empty string as the id label, and an id box whose width is computed
    from the six characters of "idnull":
    [max(prop_min_width, measure("idnull") + 10)], which is 82 under the
    default configuration. *)
Theorem drawProperties_null_id (t : string) (x y width : Q) (s : svg) :
  let id_box := Qmax (prop_min_width this) (textLength "idnull" + 10) in
  let type_box := Qmax (prop_min_width this) (textLength t + 10) in
  drawProperties this VNull (VStr t) x y width s
  = (Normal tt,
     s ++ [ newElement this (VStr "") (x + id_box / 2)
                       (y + font_size this * 1.5) (id_color this) None;
            newElement this (VStr t) (x + width - type_box / 2)
                       (y + font_size this * 1.5) (value_color this) None;
            rectangle this x y id_box (prop_min_height this) None;
            rectangle this (x + width - type_box) y type_box
                      (prop_min_height this) None ])
  /\ Qmax (prop_min_width config) (textLength "idnull" + 10) == 82.
Proof.
  split; [apply drawProperties_run | reflexivity].
Qed.

End Claims.

(** C8: on a string, [getTextLength] returns 12 times its length; the
    measure does not decrease when the length grows, and the measure of a
    concatenation is the sum of the measures. *)
Theorem getTextLength_linear (s1 s2 : string) (st : svg) :
  getTextLength (VStr s1) st = (Normal (textLength s1), st)
  /\ textLength s1 = inject_Z (Z.of_nat (String.length s1)) * 12
  /\ ((String.length s1 <= String.length s2)%nat ->
      textLength s1 <= textLength s2)
  /\ textLength (s1 ++ s2)%string == textLength s1 + textLength s2.
Proof.
  split; [reflexivity|]. split; [reflexivity|].
  split; [apply textLength_le | apply textLength_append].
Qed.

Lemma getTextLength_linear_witness :
  (String.length "id7" <= String.length "bool")%nat
  /\ textLength "id7" <= textLength "bool".
Proof.
  split; [simpl; lia|].
  apply (proj1 (proj2 (proj2 (getTextLength_linear "id7" "bool" [])))).
  simpl; lia.
Defined.



Lemma drawClass_box_witness :
  let A := [("attribute"%string, VNum 2)] in
  let longest := textLength "attribute" in
  (Qgtb (Qmax 0 longest) 0 = true
   /\ obj_min_width config <= Qmax 0 longest + 3 * item_min_width config
   /\ A <> [])
  /\ Qmax (Qmax 0 longest + item_min_width config * 3)
          (prop_min_width config + textLength "A" + 10)
     == Qmax (obj_min_width config)
             (Qmax (Qmax 0 longest + 3 * item_min_width config)
                   (textLength "A" + prop_min_width config + 10))
  /\ ((item_min_width config * 3) / 2) * inject_Z (Z.of_nat 1)
     + item_min_width config / 2 + prop_min_height config
     == (1.5 * item_min_width config) * inject_Z (Z.of_nat 1)
        + item_min_width config / 2 + prop_min_height config.
Proof.
  intros A longest.
  split; [split; [reflexivity | split; [vm_compute; discriminate
                                       | discriminate]]|].
  split.
  - apply (proj1 (proj2 (drawClass_box config 0 0 "A" (VNum 1) A VNull [])));
      [reflexivity | vm_compute; discriminate].
  - apply (proj2 (proj2 (drawClass_box config 0 0 "A" (VNum 1) A VNull []))).
    discriminate.
Defined.

(** C1: the code on the claim's empty mapping.  Under the default
    configuration [drawDict] draws the outer box of a mapping with no pair
    [obj_min_width = 200] wide and 75 high, which is not the
    [obj_min_height = 130] that [config] documents as the minimum height of
    an object rectangle and that [drawClass] falls back to when there is no
    attribute. *)
Theorem drawDict_empty_height :
  exists h rest,
    snd (drawDict config 0 0 (VNum 1) (VObj []) [])
    = Rect 0 0 (obj_min_width config) h (rect_style config) :: rest
    /\ h == 75 /\ ~ h == obj_min_height config.
Proof.
  eexists; eexists. split; [reflexivity|]. split; [reflexivity|].
  vm_compute. discriminate.
Qed.

(** C2: the code on a class with one short attribute name.  Under the
    default configuration a class named "A" with the one attribute "a" has an
    outer box 162 wide: the assignment under [longest > 0] replaces the
    [obj_min_width] the width was initialised to, so the box is narrower than
    [obj_min_width = 200], which [config] documents as the minimum width of
    an object rectangle and which is the value of the claimed maximum. *)
Theorem drawClass_narrow :
  exists w h rest,
    snd (drawClass config 0 0 (VStr "A") (VNum 1)
                   (VObj [("a"%string, VNum 2)]) VNull [])
    = Rect 0 0 w h (rect_style config) :: rest
    /\ w == 162
    /\ ~ w == Qmax (obj_min_width config)
                   (Qmax (textLength "a" + 3 * item_min_width config)
                         (textLength "A" + prop_min_width config + 10)).
Proof.
  eexists; eexists; eexists. split; [reflexivity|]. split; [reflexivity|].
  vm_compute. discriminate.
Qed.

(** Against C3: [drawAll] reads the type of a descriptor from its [name]
    property.  On the descriptor with a [type] property instead, the type is
    undefined: the value is shown as "true", [drawProperties] throws on
    measuring the type, and neither "True" nor "id7" nor "bool" is drawn. *)
Lemma drawAll_bool_type_key :
  let r := drawAll config
             (VArr [VObj [("isClass", VBool false); ("type", VStr "bool");
                          ("id", VNum 7); ("value", VBool true);
                          ("x", VNum 0); ("y", VNum 0)]]) [] in
  fst r = Throw TypeError
  /\ map reduced (snd r)
     = [ Rect 0 0 200 130 "rgb(0, 0, 0)";
         Text "true" 100 90 "rgb(27, 14, 139)" "middle" 20 ]
  /\ ~ (In "True" (texts (snd r)) /\ In "id7" (texts (snd r))
        /\ In "bool" (texts (snd r))).
Proof.
  vm_compute. split; [reflexivity|split; [reflexivity|]].
  intros [[H|[]] _]. discriminate H.
Qed.

(** C3 (as amended): drawing the single descriptor
    {isClass:false, name:"bool", id:7, value:true, x:0, y:0} through
    [drawAll] completes normally and appends the value box and its double
    box, the text "True" inside the value box, the texts "id7" and "bool",
    and the id box and the type box that contain them. *)
Theorem drawAll_bool :
  let r := drawAll config
             (VArr [VObj [("isClass", VBool false); ("name", VStr "bool");
                          ("id", VNum 7); ("value", VBool true);
                          ("x", VNum 0); ("y", VNum 0)]]) [] in
  fst r = Normal tt
  /\ map reduced (snd r)
     = [ Rect 0 0 200 130 "rgb(0, 0, 0)";
         Rect (-6) (-6) 212 142 "rgb(0, 0, 0)";
         Text "True" 100 90 "rgb(27, 14, 139)" "middle" 20;
         Text "id7" 30 30 "rgb(150, 100, 28)" "middle" 20;
         Text "bool" 170 30 "rgb(27, 14, 139)" "middle" 20;
         Rect 0 0 60 50 "rgb(0, 0, 0)";
         Rect 140 0 60 50 "rgb(0, 0, 0)" ].
Proof. vm_compute. split; reflexivity. Qed.

(** Against C4: on the descriptor with a [type] and a [showIndexes]
    property the type is undefined for [drawAll]: the array is boxed as a
    primitive showing "[2,3]", [drawProperties] throws, and no item box, no
    label and no index is drawn.  The declaration of [drawAll] that the
    class replaces does the same. *)
Lemma drawAll_list_type_key :
  let d := VObj [("isClass", VBool false); ("type", VStr "list");
                 ("id", VNum 1); ("value", VArr [VNum 2; VNum 3]);
                 ("showIndexes", VBool true); ("x", VNum 0); ("y", VNum 0)] in
  let r := drawAll config (VArr [d]) [] in
  fst r = Throw TypeError
  /\ map reduced (snd r)
     = [ Rect 0 0 200 130 "rgb(0, 0, 0)";
         Text "[2,3]" 100 90 "rgb(27, 14, 139)" "middle" 20 ]
  /\ drawAll_replaced config (VArr [d]) [] = r
  /\ ~ (In "id2" (texts (snd r)) /\ In "id3" (texts (snd r))
        /\ In "0" (texts (snd r)) /\ In "1" (texts (snd r))).
Proof.
  vm_compute. repeat split. intros [[H|[]] _]. discriminate H.
Qed.

(** C4 (as amended): drawing the single descriptor
    {isClass:false, name:"list", id:1, value:[2,3], show_indexes:true,
    x:0, y:0} through [drawAll] completes normally and appends an outer box
    of height [obj_min_height + list_index_sep = 150], two item boxes with
    the texts "id2" and "id3" inside them and the indices "0" and "1" above
    them, and the id and type labels and boxes. *)
Theorem drawAll_list :
  let r := drawAll config
             (VArr [VObj [("isClass", VBool false); ("name", VStr "list");
                          ("id", VNum 1); ("value", VArr [VNum 2; VNum 3]);
                          ("show_indexes", VBool true);
                          ("x", VNum 0); ("y", VNum 0)]]) [] in
  fst r = Normal tt
  /\ map reduced (snd r)
     = [ Rect 0 0 200 150 "rgb(0, 0, 0)";
         Rect 25 85 50 50 "rgb(0, 0, 0)";
         Text "id2" 50 115 "rgb(150, 100, 28)" "middle" 20;
         Text "0" 50 (145 # 2) "rgb(0, 0, 0)" "middle" 20;
         Rect 75 85 50 50 "rgb(0, 0, 0)";
         Text "id3" 100 115 "rgb(150, 100, 28)" "middle" 20;
         Text "1" 100 (145 # 2) "rgb(0, 0, 0)" "middle" 20;
         Text "id1" 30 30 "rgb(150, 100, 28)" "middle" 20;
         Text "list" 170 30 "rgb(27, 14, 139)" "middle" 20;
         Rect 0 0 60 50 "rgb(0, 0, 0)";
         Rect 140 0 60 50 "rgb(0, 0, 0)" ]
  /\ obj_min_height config + list_index_sep config == 150.
Proof. vm_compute. repeat split. Qed.


(** * Further properties of the code *)

(** ** The surface only grows *)

Section Draws.

Variable P : node -> Prop.

Lemma draws_ret {A : Type} (a : A) : draws P (ret a).
Proof.
  exists (Normal a), []. split; [constructor|].
  intros s. unfold ret. now rewrite app_nil_r.
Qed.

Lemma draws_throw {A : Type} (e : error) : draws P (@throw A e).
Proof.
  exists (Throw e), []. split; [constructor|].
  intros s. unfold throw. now rewrite app_nil_r.
Qed.

Lemma draws_not_modelled {A : Type} : draws P (@not_modelled A).
Proof.
  exists NotModelled, []. split; [constructor|].
  intros s. unfold not_modelled. now rewrite app_nil_r.
Qed.

Lemma draws_appendChild (n : node) : P n -> draws P (appendChild n).
Proof.
  intros H. exists (Normal tt), [n]. split; [now constructor|]. reflexivity.
Qed.

Lemma draws_bind {A B : Type} (m : M A) (f : A -> M B) :
  draws P m -> (forall a, draws P (f a)) -> draws P (bind m f).
Proof.
  intros (c & out & Hout & Hm) Hf. destruct c as [a|e|].
  - destruct (Hf a) as (c' & out' & Hout' & Hfa).
    exists c', (out ++ out'). split; [now apply Forall_app|].
    intros s. unfold bind. rewrite Hm, Hfa. now rewrite app_assoc.
  - exists (Throw e), out. split; [assumption|].
    intros s. unfold bind. now rewrite Hm.
  - exists NotModelled, out. split; [assumption|].
    intros s. unfold bind. now rewrite Hm.
Qed.

Lemma draws_forEach {A St : Type} (body : St -> A -> nat -> M St) (l : list A) :
  (forall st v i, draws P (body st v i)) ->
  forall i st, draws P (forEach body l i st).
Proof.
  intros Hb. induction l as [|v l IH]; intros i st; simpl.
  - apply draws_ret.
  - apply draws_bind; [apply Hb | intros st'; apply IH].
Qed.

Lemma draws_for_in {St : Type} (body : St -> string -> M St) (obj : jsval) (st : St) :
  (forall st k, draws P (body st k)) -> draws P (for_in body obj st).
Proof. intros Hb. apply draws_forEach. intros; apply Hb. Qed.

Lemma draws_forEachOf {St : Type} (body : St -> jsval -> nat -> M St) (v : jsval) (st : St) :
  (forall st v i, draws P (body st v i)) -> draws P (forEachOf body v st).
Proof.
  intros Hb. destruct v; try apply draws_throw. now apply draws_forEach.
Qed.

Lemma draws_getTextLength (v : jsval) : draws P (getTextLength v).
Proof. destruct v; first [apply draws_ret | apply draws_throw | apply draws_not_modelled]. Qed.

Lemma draws_length_of (v : jsval) : draws P (length_of v).
Proof. destruct v; first [apply draws_ret | apply draws_not_modelled]. Qed.

Lemma draws_Object_keys (v : jsval) : draws P (Object_keys v).
Proof. destruct v; first [apply draws_ret | apply draws_throw]. Qed.

Lemma draws_getprop (v : jsval) k : draws P (getprop v k).
Proof. destruct v; first [apply draws_ret | apply draws_throw]. Qed.

Lemma draws_to_coord (v : jsval) : draws P (to_coord v).
Proof. destruct v; first [apply draws_ret | apply draws_not_modelled]. Qed.
End Draws.

Section Surface.

Variable this : Config.

Lemma draws_drawRect x y w h : draws (styled this) (drawRect this x y w h None).
Proof. apply draws_appendChild. reflexivity. Qed.

Lemma colour_known (c : string) :
  In c [text_color this; value_color this; id_color this] ->
  In (if String.eqb c "" then text_color this else c)
     [text_color this; value_color this; id_color this].
Proof. intros H. destruct (String.eqb c ""); [now left | assumption]. Qed.

Lemma draws_drawText text x y c :
  In c [text_color this; value_color this; id_color this] ->
  draws (styled this) (drawText this text x y c None).
Proof.
  intros H. apply draws_appendChild. simpl. split; [now apply colour_known|].
  split; [now left | reflexivity].
Qed.

Lemma draws_drawText_begin text x y c :
  In c [text_color this; value_color this; id_color this] ->
  draws (styled this) (drawText this text x y c (Some "begin")).
Proof.
  intros H. apply draws_appendChild. simpl. split; [now apply colour_known|].
  split; [right; now left | reflexivity].
Qed.

Ltac draws_step :=
  match goal with
  | |- draws _ (bind _ _) => apply draws_bind; [|intros]
  | |- draws _ (ret _) => apply draws_ret
  | |- draws _ (throw _) => apply draws_throw
  | |- draws _ (getTextLength _) => apply draws_getTextLength
  | |- draws _ (length_of _) => apply draws_length_of
  | |- draws _ (Object_keys _) => apply draws_Object_keys
  | |- draws _ (getprop _ _) => apply draws_getprop
  | |- draws _ (to_coord _) => apply draws_to_coord
  | |- draws _ (drawRect _ _ _ _ _ None) => apply draws_drawRect
  | |- draws _ (drawText _ _ _ _ _ None) => apply draws_drawText; simpl; auto
  | |- draws _ (drawText _ _ _ _ _ (Some "begin")) => apply draws_drawText_begin; simpl; auto
  | |- draws _ (forEachOf _ _ _) => apply draws_forEachOf; intros
  | |- draws _ (for_in _ _ _) => apply draws_for_in; intros
  | |- draws _ (if ?b then _ else _) => destruct b
  | st : (Q * Q * Q)%type |- _ => destruct st as [[? ?] ?]
  end.

Lemma draws_drawProperties id type x y w :
  draws (styled this) (drawProperties this id type x y w).
Proof. unfold drawProperties. repeat draws_step. Qed.

Lemma draws_drawPrimitive x y type id value :
  draws (styled this) (drawPrimitive this x y type id value).
Proof. unfold drawPrimitive. repeat draws_step; apply draws_drawProperties. Qed.

Lemma draws_drawSequence x y type id v show :
  draws (styled this) (drawSequence this x y type id v show).
Proof. unfold drawSequence. repeat draws_step; apply draws_drawProperties. Qed.

Lemma draws_drawSet x y id v :
  draws (styled this) (drawSet this x y id v).
Proof.
  unfold drawSet. repeat (first [apply draws_drawProperties | draws_step]).
Qed.

Lemma draws_drawDict x y id v :
  draws (styled this) (drawDict this x y id v).
Proof.
  unfold drawDict. repeat (first [apply draws_drawProperties | draws_step]).
Qed.

Lemma draws_drawClass x y name id v sf :
  draws (styled this) (drawClass this x y name id v sf).
Proof.
  unfold drawClass. repeat (first [apply draws_drawProperties | draws_step]).
Qed.

Lemma draws_drawObject x y type id v show :
  draws (styled this) (drawObject this x y type id v show).
Proof.
  unfold drawObject.
  repeat (first [apply draws_drawPrimitive | apply draws_drawSequence
                | apply draws_drawSet | apply draws_drawDict | draws_step]).
Qed.

Lemma draws_drawAll objects : draws (styled this) (drawAll this objects).
Proof.
  unfold drawAll.
  repeat (first [apply draws_drawObject | apply draws_drawClass | draws_step]).
Qed.

(** X1: whatever [objects] is, and also when it throws, [drawAll] leaves the
    nodes already on the surface in place and appends after them nodes that
    do not depend on what the surface held; how it completes does not depend
    on it either. *)
Theorem drawAll_appends (objects : jsval) :
  exists c out, forall s, drawAll this objects s = (c, s ++ out).
Proof.
  destruct (draws_drawAll objects) as (c & out & _ & H). now exists c, out.
Qed.

(** X2: every node on the surface after [drawAll] was there before or was
    built from the fields of the model: a rectangle has the style
    [rect_style]; a text has the font size [font_size], one of the colours
    [text_color], [value_color] and [id_color], and the anchor "middle" or
    "begin". *)
Theorem drawAll_styled (objects : jsval) (s : svg) (n : node) :
  In n (snd (drawAll this objects s)) -> In n s \/ styled this n.
Proof.
  destruct (draws_drawAll objects) as (c & out & Hout & H). rewrite H.
  cbn [snd]. intros Hin. apply in_app_or in Hin. destruct Hin as [Hin|Hin].
  - now left.
  - right. rewrite Forall_forall in Hout. now apply Hout.
Qed.

End Surface.

Lemma drawAll_styled_witness :
  let objects :=
    VArr [VObj [("isClass", VBool false); ("name", VStr "bool");
                ("id", VNum 7); ("value", VBool true);
                ("x", VNum 0); ("y", VNum 0)]] in
  let n := Rect 0 0 200 130 "rgb(0, 0, 0)" in
  In n (snd (drawAll config objects [])) /\ (In n [] \/ styled config n).
Proof.
  intros objects n.
  assert (H : In n (snd (drawAll config objects [])))
    by (vm_compute; left; reflexivity).
  split; [exact H | exact (drawAll_styled config objects [] n H)].
Defined.

(** ** The items of [drawAll] *)

(** The decimal numeral of an integer reads back as that integer. *)
Lemma string_of_Z_parse (n : Z) :
  NilZero.int_of_string (string_of_Z n) = Some (Z.to_int n).
Proof.
  unfold string_of_Z. apply NilZero.isi; destruct n; simpl; try discriminate;
    intros [= H]; now apply Unsigned.to_uint_nonnil in H.
Qed.

Lemma string_of_Z_inj (a b : Z) : string_of_Z a = string_of_Z b -> a = b.
Proof.
  intros H. apply DecimalZ.to_int_inj.
  pose proof (string_of_Z_parse a) as Ha. rewrite H, string_of_Z_parse in Ha.
  now injection Ha.
Qed.

Lemma index_key_neq (i j : nat) :
  i <> j ->
  String.eqb (string_of_Z (Z.of_nat i)) (string_of_Z (Z.of_nat j)) = false.
Proof.
  intros H. apply String.eqb_neq. intros E. apply string_of_Z_inj in E. lia.
Qed.

(** [l[i]] read through the key of the index. *)
Lemma lookup_index (l : list jsval) :
  forall j i,
    (i < List.length l)%nat ->
    lookup (string_of_Z (Z.of_nat (j + i)))
           (map (fun ie => (string_of_Z (Z.of_nat (fst ie)), snd ie))
                (indexed j l))
    = nth i l VUndefined.
Proof.
  induction l as [|v l IH]; intros j i Hi; simpl in Hi; [lia|].
  destruct i as [|i]; simpl.
  - now rewrite Nat.add_0_r, String.eqb_refl.
  - rewrite index_key_neq by lia.
    replace (j + S i)%nat with (S j + i)%nat by lia. apply IH. lia.
Qed.

Lemma get_index (l : list jsval) (i : nat) :
  (i < List.length l)%nat ->
  get (VArr l) (string_of_Z (Z.of_nat i)) = nth i l VUndefined.
Proof. intros H. unfold get, props. now apply (lookup_index l 0 i). Qed.

Lemma forEach_index {A St : Type} (body : St -> A -> M St) (l : list A) :
  forall i j st s,
    forEach (fun st v _ => body st v) l i st s
    = forEach (fun st v _ => body st v) l j st s.
Proof.
  induction l as [|v l IH]; intros i j st s; [reflexivity|].
  simpl. unfold bind. destruct (body st v s) as [[st'|e|] s']; try reflexivity.
  apply IH.
Qed.

Lemma forEach_app {A St : Type} (body : St -> A -> nat -> M St) (l1 l2 : list A) :
  forall i st s,
    forEach body (l1 ++ l2) i st s
    = bind (forEach body l1 i st)
           (fun st' => forEach body l2 (List.length l1 + i) st') s.
Proof.
  induction l1 as [|v l1 IH]; intros i st s; simpl.
  - reflexivity.
  - unfold bind. destruct (body st v i s) as [[st'|e|] s']; try reflexivity.
    rewrite IH. unfold bind. now rewrite Nat.add_succ_r.
Qed.

Section Items.

Variable this : Config.

Lemma drawAll_unfold (objects : jsval) :
  drawAll this objects
  = for_in (fun _ i => drawAll_item this (get objects i)) objects tt.
Proof. reflexivity. Qed.

(** Reading the items back through their keys gives the items. *)
Lemma drawAll_items (objects l : list jsval) :
  forall j i s,
    (forall k, (k < List.length l)%nat ->
               nth (j + k) objects VUndefined = nth k l VUndefined) ->
    (j + List.length l <= List.length objects)%nat ->
    forEach (fun (_ : unit) (kv : string * jsval) (_ : nat) =>
               drawAll_item this (get (VArr objects) (fst kv)))
            (map (fun ie => (string_of_Z (Z.of_nat (fst ie)), snd ie))
                 (indexed j l)) i tt s
    = forEach (fun (_ : unit) item (_ : nat) => drawAll_item this item) l i tt s.
Proof.
  induction l as [|v l IH]; intros j i s Hnth Hlen; [reflexivity|].
  simpl in Hlen. cbn [indexed map forEach fst]. unfold bind.
  assert (Hv : get (VArr objects) (string_of_Z (Z.of_nat j)) = v).
  { rewrite get_index by lia. rewrite <- (Nat.add_0_r j).
    now rewrite (Hnth 0%nat) by (simpl; lia). }
  rewrite Hv. destruct (drawAll_item this v s) as [[[]|e|] s']; try reflexivity.
  apply IH; [|lia]. intros k Hk.
  replace (S j + k)%nat with (j + S k)%nat by lia.
  rewrite Hnth by (simpl; lia). reflexivity.
Qed.

Lemma drawAll_array (l : list jsval) (s : svg) :
  drawAll this (VArr l) s
  = forEach (fun (_ : unit) item (_ : nat) => drawAll_item this item) l 0 tt s.
Proof.
  rewrite drawAll_unfold. unfold for_in. simpl props.
  apply drawAll_items; [intros; reflexivity | simpl; lia].
Qed.

(** X3: [drawAll] draws the items of an array in order: drawing [l1 ++ l2]
    is drawing [l1] and then, when that completed normally, [l2] on the
    surface it left; when an item throws the rest is not drawn.  An empty
    array, null and undefined draw nothing and complete normally; an item
    that is null or undefined throws at the reading of [isClass]. *)
Theorem drawAll_sequence (l1 l2 : list jsval) (s : svg) :
  drawAll this (VArr (l1 ++ l2)) s
  = bind (drawAll this (VArr l1)) (fun _ => drawAll this (VArr l2)) s
  /\ drawAll this (VArr []) s = (Normal tt, s)
  /\ drawAll this VNull s = (Normal tt, s)
  /\ drawAll this VUndefined s = (Normal tt, s)
  /\ drawAll this (VArr (VNull :: l2)) s = (Throw TypeError, s)
  /\ drawAll this (VArr (VUndefined :: l2)) s = (Throw TypeError, s).
Proof.
  split; [|repeat split; try reflexivity; now rewrite drawAll_array].
  rewrite drawAll_array, forEach_app. unfold bind.
  rewrite drawAll_array. destruct (forEach _ l1 0%nat tt s) as [[[]|e|] s'];
    try reflexivity.
  rewrite drawAll_array.
  now rewrite (forEach_index (fun _ item => drawAll_item this item) l2
                 (List.length l1 + 0) 0).
Qed.

End Items.

(** ** Failures *)


Lemma count_S (n : nat) : inject_Z (Z.of_nat (S n)) == inject_Z (Z.of_nat n) + 1.
Proof. rewrite Nat2Z.inj_succ. unfold Z.succ. now rewrite inject_Z_plus. Qed.

Lemma count_nonneg (n : nat) : 0 <= inject_Z (Z.of_nat n).
Proof. change 0 with (inject_Z 0). rewrite <- Zle_Qle. lia. Qed.


Section Failures.

Variable this : Config.

Lemma drawSet_not_array (x y : Q) (id v : jsval) (s : svg) :
  (forall l, v <> VArr l) -> drawSet this x y id v s = (Throw TypeError, s).
Proof. intros H; destruct v; try reflexivity. now destruct (H l). Qed.

(** X4: with a type that is a string, and an id and a value that are plain
    (safe integers, no object that redefines [toString], so that every label
    converts), [drawObject] fails exactly when the type is list, set or tuple
    and the value is not an array; it then throws a TypeError before anything
    is drawn, also when the id or the value is not plain.  Every other type,
    a mapping of any plain value included, completes normally. *)
Theorem drawObject_needs_array (x y : Q) (t : string)
        (id value show_indexes : jsval) (s : svg) :
  (In t ["list"; "set"; "tuple"] -> (forall l, value <> VArr l) ->
   drawObject this x y (VStr t) id value show_indexes s = (Throw TypeError, s))
  /\ (plain id = true -> plain value = true ->
      ~ In t ["list"; "set"; "tuple"] \/ (exists l, value = VArr l) ->
      fst (drawObject this x y (VStr t) id value show_indexes s) = Normal tt).
Proof.
  split.
  - intros Ht Hv. simpl in Ht. decompose [or] Ht; subst; try contradiction.
    + apply (drawSequence_not_array this x y (VStr "list") id value show_indexes s Hv).
    + apply (drawSet_not_array x y id value s Hv).
    + apply (drawSequence_not_array this x y (VStr "tuple") id value show_indexes s Hv).
  - intros _ _ H.
    unfold drawObject, includes, collections, is_string. cbn [existsb].
    destruct (String.eqb_spec t "list") as [->|Hl].
    { destruct H as [H|[l ->]]; [exfalso; apply H; simpl; auto|].
      cbn. now rewrite drawSequence_run. }
    destruct (String.eqb_spec t "set") as [->|Hs].
    { destruct H as [H|[l ->]]; [exfalso; apply H; simpl; auto|].
      cbn. now rewrite drawSet_run. }
    destruct (String.eqb_spec t "tuple") as [->|Ht].
    { destruct H as [H|[l ->]]; [exfalso; apply H; simpl; auto|].
      cbn. now rewrite drawSequence_run. }
    destruct (String.eqb_spec t "dict") as [->|Hd].
    { cbn. now rewrite drawDict_run. }
    cbn [orb]. now rewrite drawPrimitive_run.
Qed.

(** X5: with a type that is undefined or null (a descriptor with no [name])
    and a plain value (one that converts to a string, its numbers safe
    integers) the entity is boxed as a primitive: the value box, and the JSON
    text of a value that is not null or undefined, are appended, then
    [drawProperties] throws a TypeError and the surface keeps that partial
    drawing without labels or property boxes. *)
Theorem drawObject_without_type (x y : Q)
        (type id value show_indexes : jsval) (s : svg) :
  plain value = true ->
  type = VUndefined \/ type = VNull ->
  drawObject this x y type id value show_indexes s
  = (Throw TypeError,
     s ++ Rect x y (primitive_width this value) (obj_min_height this)
               (rect_style this)
       :: (if is_null value || is_undefined value then []
           else [newElement this (of_option (JSON_stringify value))
                            (x + primitive_width this value / 2)
                            (y + (obj_min_height this + prop_min_height this) / 2)
                            (value_color this) None])).
Proof.
  intros _ [-> | ->]; unfold drawObject;
    cbn [includes collections existsb is_string];
    unfold drawPrimitive; run_body; fold (primitive_width this value);
    cbn [includes immutable existsb is_string orb];
    destruct value; cbn; flatten_svg; reflexivity.
Qed.

(** [drawClass] on attributes of any type but null and undefined. *)
Lemma drawClass_run_props (x y : Q) (name : string)
      (id attributes stack_frame : jsval) (s : svg) :
  is_null attributes || is_undefined attributes = false ->
  drawClass this x y (VStr name) id attributes stack_frame s
  = (Normal tt, s ++ class_nodes this x y name id (props attributes) stack_frame).
Proof.
  intros Hattr.
  assert (Hkeys : forall s0, Object_keys attributes s0
                             = (Normal (map fst (props attributes)), s0))
    by (destruct attributes; try discriminate Hattr; reflexivity).
  unfold drawClass, class_nodes, class_items, class_label, for_in.
  cbv beta iota zeta delta
      [bind ret throw not_modelled appendChild drawRect drawText
       getTextLength].
  rewrite (forEach_run _ (fun longest kv _ => Qmax longest (textLength (fst kv)))
                       (fun _ _ _ => []))
    by (intros; now rewrite app_nil_r).
  rewrite loop_state_fold, loop_out_nil, app_nil_r, Hkeys.
  fold (longest (props attributes)).
  fold (class_width this name (props attributes)).
  fold (class_height this (props attributes)).
  fold (dict_start this y).
  rewrite (forEach_run _ (fun curr_y _ _ => curr_y + item_min_height this * 1.5)
             (class_item this (props attributes) x
                         (class_width this name (props attributes))))
    by (intros cy0 kv i s0; unfold class_item, idv, get;
        flatten_svg; reflexivity).
  destruct (truthy stack_frame).
  - flatten_svg. reflexivity.
  - rewrite drawProperties_run. flatten_svg. reflexivity.
Qed.

(** X6: with a name that is a string, and an id and attributes that are
    plain (safe integers, no object that redefines [toString], so that every
    label converts), [drawClass] fails exactly when the attributes are null
    or undefined, and then throws a TypeError before anything is drawn; with
    a name that is undefined or null it throws before anything is drawn
    whatever the attributes. *)
Theorem drawClass_needs_attributes (x y : Q) (name : string)
        (id attributes stack_frame : jsval) (s : svg) :
  (attributes = VNull \/ attributes = VUndefined ->
   drawClass this x y (VStr name) id attributes stack_frame s
   = (Throw TypeError, s))
  /\ (plain id = true -> plain attributes = true ->
      attributes <> VNull -> attributes <> VUndefined ->
      fst (drawClass this x y (VStr name) id attributes stack_frame s)
      = Normal tt)
  /\ drawClass this x y VUndefined id attributes stack_frame s
     = (Throw TypeError, s)
  /\ drawClass this x y VNull id attributes stack_frame s
     = (Throw TypeError, s).
Proof.
  repeat split.
  - intros [-> | ->]; reflexivity.
  - intros _ _ H1 H2. rewrite drawClass_run_props; [reflexivity|].
    destruct attributes; try reflexivity; congruence.
  - unfold drawClass, for_in. run_body.
    rewrite (forEach_run _ (fun longest kv _ => Qmax longest (textLength (fst kv)))
                       (fun _ _ _ => []))
      by (intros; now rewrite app_nil_r).
    now rewrite loop_out_nil, app_nil_r.
  - unfold drawClass, for_in. run_body.
    rewrite (forEach_run _ (fun longest kv _ => Qmax longest (textLength (fst kv)))
                       (fun _ _ _ => []))
      by (intros; now rewrite app_nil_r).
    now rewrite loop_out_nil, app_nil_r.
Qed.

End Failures.

Lemma drawObject_needs_array_witness :
  drawObject config 0 0 (VStr "list") (VNum 1) VNull VUndefined []
  = (Throw TypeError, [])
  /\ fst (drawObject config 0 0 (VStr "list") (VNum 1) (VArr [VNum 2])
                     VUndefined [])
     = Normal tt.
Proof.
  split.
  - apply (proj1 (drawObject_needs_array config 0 0 "list" (VNum 1) VNull
                    VUndefined [])); [simpl; auto | intros l; discriminate].
  - apply (proj2 (drawObject_needs_array config 0 0 "list" (VNum 1)
                    (VArr [VNum 2]) VUndefined []));
      [reflexivity | reflexivity | right; eexists; reflexivity].
Defined.

Lemma drawObject_without_type_witness :
  plain (VBool true) = true
  /\ fst (drawObject config 0 0 VUndefined (VNum 7) (VBool true) VUndefined [])
     = Throw TypeError.
Proof.
  split; [reflexivity|].
  rewrite (drawObject_without_type config 0 0 VUndefined (VNum 7) (VBool true)
             VUndefined []); [reflexivity | reflexivity | left; reflexivity].
Defined.

Lemma drawClass_needs_attributes_witness :
  drawClass config 0 0 (VStr "A") VNull VNull VNull [] = (Throw TypeError, [])
  /\ fst (drawClass config 0 0 (VStr "A") VNull (VObj []) VNull [])
     = Normal tt.
Proof.
  split.
  - apply (proj1 (drawClass_needs_attributes config 0 0 "A" VNull VNull VNull
                    [])). left; reflexivity.
  - apply (proj1 (proj2 (drawClass_needs_attributes config 0 0 "A" VNull
                           (VObj []) VNull [])));
      [reflexivity | reflexivity | discriminate | discriminate].
Defined.

(** ** Class instances and stack frames *)

Section Classes.

Variable this : Config.

Lemma class_items_texts A x w (l : list (string * jsval)) :
  forall i cy,
    texts (loop_out (fun curr_y _ _ => curr_y + item_min_height this * 1.5)
                    (class_item this A x w) l i cy)
    = flat_map (fun kv => [fst kv; idv (lookup (fst kv) A)]) l.
Proof.
  induction l as [|kv l IH]; intros i cy; simpl; [reflexivity|].
  now rewrite IH.
Qed.

(** The attribute boxes: one per attribute, all at the same [x], stacked
    from [cy] with the pitch [1.5 * item_min_height]. *)
Lemma class_items_column A x w (l : list (string * jsval)) :
  forall i cy,
    let rs := rects (loop_out
                       (fun curr_y _ _ => curr_y + item_min_height this * 1.5)
                       (class_item this A x w) l i cy) in
    Forall2 Qeq (map y_of rs) (rows cy (1.5 * item_min_height this) (List.length l))
    /\ Forall (fun r => x_of r = x + w - item_min_width this * 1.5
                        /\ height_of r = item_min_height this) rs
    /\ (0 <= item_min_height this ->
        Forall (fun r => cy <= y_of r
                         /\ y_of r + height_of r
                            <= cy + item_min_height this
                               + 1.5 * item_min_height this
                                 * (inject_Z (Z.of_nat (List.length l)) - 1))
               rs).
Proof.
  induction l as [|kv l IH]; intros i cy; cbn zeta.
  - simpl. repeat split; constructor.
  - destruct (IH (S i) (cy + item_min_height this * 1.5)) as (H1 & H2 & H3).
    cbn [loop_out class_item app rects filter is_rect rectangle newElement].
    cbn [map y_of x_of height_of List.length].
    split; [|split].
    + eapply Forall2_Qeq_trans; [|apply rows_S].
      constructor; [reflexivity|].
      eapply Forall2_Qeq_trans; [apply H1|].
      unfold rows. induction (seq 0 (List.length l)); simpl; constructor; auto.
      ring.
    + constructor; [split; reflexivity | exact H2].
    + intros Hh. pose proof (count_nonneg (List.length l)) as Hn.
      assert (Hp : 0 <= item_min_height this * inject_Z (Z.of_nat (List.length l)))
        by now apply Qmult_le_0_compat.
      constructor.
      * unfold rectangle. cbn [y_of height_of]. rewrite count_S. split; lra.
      * eapply Forall_impl; [|exact (H3 Hh)]. intros r [Ha Hb].
        rewrite count_S. split; lra.
Qed.


(** X7: for a stack frame (a truthy [stack_frame]) [drawClass] never reads
    the id: the call does the same for any two ids.  With a string name and
    an attribute object whose values are plain it draws the outer box, then
    one box per attribute with the attribute's name and the label of its
    value, and last one name box, [measure(name) + 10] wide and
    [prop_min_height] high, and the name; these are all the texts, so no id
    label is drawn.  The name stands at the height [y + prop_min_height * 0.6]
    as doubles compute it: the product by the double nearest to 0.6 is
    rounded, and so is the sum. *)
Theorem drawClass_stack_frame (x y : Q)
        (name id id' attributes stack_frame : jsval)
        (n : string) (A : list (string * jsval)) (s : svg) :
  truthy stack_frame = true ->
  drawClass this x y name id attributes stack_frame s
  = drawClass this x y name id' attributes stack_frame s
  /\ (forallb (fun kv => plain (snd kv)) A = true ->
      exists items,
        drawClass this x y (VStr n) id (VObj A) stack_frame s
        = (Normal tt,
           s ++ Rect x y (class_width this n A) (class_height this A)
                     (rect_style this)
             :: items
             ++ [ Rect x y (textLength n + 10) (prop_min_height this)
                       (rect_style this);
                  newElement this (VStr n) (x + textLength n / 2 + 5)
                             (nearest_double
                                (y + nearest_double
                                       (prop_min_height this
                                        * nearest_double 0.6)))
                             (text_color this) None ])
        /\ texts items
           = flat_map (fun kv => [fst kv; idv (lookup (fst kv) A)]) A
        /\ List.length (rects items) = List.length A).
Proof.
  intros Hsf. split.
  - unfold drawClass. now rewrite Hsf.
  - intros _. rewrite drawClass_run. unfold class_nodes, class_label.
    rewrite Hsf. exists (class_items this x y n A).
    split; [reflexivity|]. split; [apply class_items_texts|].
    unfold class_items.
    destruct (class_items_column A x (class_width this n A) A 0%nat
                (dict_start this y)) as (H1 & _).
    apply Forall2_length in H1. rewrite length_map in H1.
    rewrite H1. unfold rows. now rewrite length_map, length_seq.
Qed.


End Classes.

Lemma drawClass_stack_frame_witness :
  let this :=
    {| rect_style := rect_style config; text_color := text_color config;
       value_color := value_color config; id_color := id_color config;
       item_min_width := 50; item_min_height := 50; obj_min_width := 200;
       obj_min_height := 130; prop_min_width := 60; prop_min_height := 48;
       obj_x_padding := 25; double_rect_sep := 6; list_index_sep := 20;
       font_size := 20; browser := false |} in
  let A := [("a"%string, VNum 2)] in
  (truthy (VBool true) = true /\ forallb (fun kv => plain (snd kv)) A = true)
  /\ drawClass this 0 0 (VStr "f") (VNum 1) (VObj A) (VBool true) []
     = drawClass this 0 0 (VStr "f") VNull (VObj A) (VBool true) []
  /\ exists items,
      drawClass this 0 0 (VStr "f") (VNum 1) (VObj A) (VBool true) []
      = (Normal tt,
         [] ++ Rect 0 0 (class_width this "f" A) (class_height this A)
                    (rect_style this)
            :: items
            ++ [ Rect 0 0 (textLength "f" + 10) 48 (rect_style this);
                 newElement this (VStr "f") (0 + textLength "f" / 2 + 5)
                            (2026619832316723 # 70368744177664)
                            (text_color this) None ])
      /\ texts items = ["a"%string; "id2"%string].
Proof.
  intros this A. split; [split; reflexivity|]. split.
  - apply (proj1 (drawClass_stack_frame this 0 0 (VStr "f") (VNum 1) VNull
                    (VObj A) (VBool true) "f" A [] eq_refl)).
  - destruct (proj2 (drawClass_stack_frame this 0 0 (VStr "f") (VNum 1) VNull
                       (VObj A) (VBool true) "f" A [] eq_refl) eq_refl)
      as (items & E & Ht & _).
    exists items. split; [exact E | exact Ht].
Defined.


(** ** Rows of element boxes *)

Section Rows.

Variable this : Config.







End Rows.



(** ** The size of a mapping *)

Section Mappings.

Variable this : Config.





End Mappings.


(** ** What a primitive shows *)




Section Labels.

Variable this : Config.


(** The labels of integer references determine the references. *)
Lemma sequence_labels_inj (show : jsval) (la : list Z) :
  forall lb i,
    sequence_labels show i (map VNum la)
    = sequence_labels show i (map VNum lb) ->
    la = lb.
Proof.
  unfold sequence_labels.
  induction la as [|a la IH]; intros [|b lb] i H;
    cbn [map indexed flat_map snd fst] in H;
    destruct (truthy show) eqn:Hs; cbn [app] in H;
    try reflexivity; try discriminate H.
  - injection H as Hab Hrest. cbn in Hab. apply string_of_Z_inj in Hab.
    subst. f_equal. apply (IH lb (S i)). exact Hrest.
  - injection H as Hab Hrest. cbn in Hab. apply string_of_Z_inj in Hab.
    subst. f_equal. apply (IH lb (S i)). exact Hrest.
Qed.

(** X13: with a plain id, two lists or tuples of references that are safe
    integers (the integers a double holds exactly, printed as decimal
    numerals) and that show the same texts hold the same references; and a
    plain element labelled like a null element is null: the label of a
    reference that is not null is never blank. *)
Theorem labels_identify_references (x y : Q) (type id show_idx : jsval)
        (la lb : list Z) (v : jsval) (s : svg) :
  plain id = true ->
  (forallb isSafeInteger la = true -> forallb isSafeInteger lb = true ->
   texts (snd (drawSequence this x y type id (VArr (map VNum la)) show_idx s))
   = texts (snd (drawSequence this x y type id (VArr (map VNum lb)) show_idx s))
   -> la = lb)
  /\ (plain v = true ->
      texts (snd (drawSequence this x y type id (VArr [v]) show_idx s))
      = texts (snd (drawSequence this x y type id (VArr [VNull]) show_idx s))
      -> v = VNull).
Proof.
  intros _.
  rewrite !drawSequence_run. cbn [snd]. unfold sequence_nodes.
  repeat (change (?a :: ?b ++ ?c ++ ?d) with ((a :: b) ++ c ++ d)).
  rewrite !texts_app. unfold sequence_items.
  rewrite !sequence_items_texts.
  split; [intros _ _ H | intros _ H]; apply app_inv_head in H;
    destruct (includes immutable type);
    cbn [texts flat_map rectangle double_box app] in H;
    apply app_inv_tail in H.
  - now apply sequence_labels_inj in H.
  - now apply sequence_labels_inj in H.
  - unfold sequence_labels in H. cbn [indexed flat_map snd app] in H.
    injection H as H. unfold idv in H.
    destruct v; try reflexivity; cbn in H; discriminate H.
  - unfold sequence_labels in H. cbn [indexed flat_map snd app] in H.
    injection H as H. unfold idv in H.
    destruct v; try reflexivity; cbn in H; discriminate H.
Qed.
End Labels.


Lemma labels_identify_references_witness :
  (plain (VNum 1) = true /\ forallb isSafeInteger [2%Z; 3%Z] = true)
  /\ texts (snd (drawSequence config 0 0 (VStr "list") (VNum 1)
                              (VArr (map VNum [2%Z; 3%Z])) VUndefined []))
     = texts (snd (drawSequence config 0 0 (VStr "list") (VNum 1)
                                (VArr (map VNum [2%Z; 3%Z])) VUndefined []))
  /\ [2%Z; 3%Z] = [2%Z; 3%Z].
Proof.
  split; [split; reflexivity|]. split; [reflexivity|].
  apply (proj1 (labels_identify_references config 0 0 (VStr "list") (VNum 1)
                  VUndefined [2%Z; 3%Z] [2%Z; 3%Z] VNull [] eq_refl));
    reflexivity.
Defined.

(** ** The options of the constructor *)



Lemma lookup_insert_other (o1 o2 : list (string * jsval)) (k k' : string)
      (v : jsval) :
  k <> k' -> lookup k' (o1 ++ (k, v) :: o2) = lookup k' (o1 ++ o2).
Proof.
  intros H. induction o1 as [|[k1 v1] o1 IH]; simpl.
  - destruct (String.eqb_spec k k'); [contradiction | reflexivity].
  - now rewrite IH.
Qed.

Lemma hasOwn_insert_other (o1 o2 : list (string * jsval)) (k k' : string)
      (v : jsval) :
  k <> k' ->
  hasOwnProperty (VObj (o1 ++ (k, v) :: o2)) k'
  = hasOwnProperty (VObj (o1 ++ o2)) k'.
Proof.
  intros H. unfold hasOwnProperty. simpl. rewrite !existsb_app. simpl.
  destruct (String.eqb_spec k k'); [contradiction | reflexivity].
Qed.


(** With options that are missing or falsy the constructor copies every
    default of [config] and sizes the root element 800 by 800; those fields
    are the typed configuration [config] the methods are read with. *)
Lemma MemoryModel_defaults (options : jsval) :
  truthy options = false ->
  MemoryModel options
  = Normal {| svg_width := "800"; svg_height := "800";
              fields := config_object |}
  /\ Config_of config_object = Some config.
Proof.
  intros H. split; [|reflexivity].
  unfold MemoryModel, or_else. now rewrite H.
Qed.

(** X15: building a model from the fields of a model gives the same fields
    again. *)
Theorem MemoryModel_fields_again (o : list (string * jsval)) (m : instance) :
  MemoryModel (VObj o) = Normal m ->
  exists m', MemoryModel (VObj (fields m)) = Normal m'
             /\ fields m' = fields m.
Proof.
  unfold MemoryModel, or_else, get. cbn [truthy props].
  destruct (truthy (lookup "browser" o)) eqn:Hb; [discriminate|].
  destruct (hasOwnProperty (VObj o) "hasOwnProperty"); [discriminate|].
  intros [= <-]. cbn.
  destruct (existsb (fun kv => String.eqb (fst kv) "browser") o) eqn:E;
    [rewrite Hb|]; cbn; eexists; (split; [reflexivity|]); cbn; rewrite ?E;
    reflexivity.
Qed.

(** X16: an option the constructor does not know (not a key of [config], nor
    [width], [height] or [hasOwnProperty]) changes nothing, wherever it
    stands in the options. *)
Theorem MemoryModel_ignores_unknown (o1 o2 : list (string * jsval))
        (k : string) (v : jsval) :
  ~ In k ("width" :: "height" :: "hasOwnProperty" :: map fst config_object) ->
  MemoryModel (VObj (o1 ++ (k, v) :: o2)) = MemoryModel (VObj (o1 ++ o2)).
Proof.
  intros Hk. unfold MemoryModel, or_else, get. cbn [truthy props].
  assert (Hl : forall k', In k' ("width" :: "height" :: "hasOwnProperty"
                                   :: map fst config_object) ->
                          k <> k') by (intros k' Hin ->; contradiction).
  rewrite !(lookup_insert_other o1 o2 k _ v) by (apply Hl; simpl; auto 20).
  rewrite (hasOwn_insert_other o1 o2 k _ v) by (apply Hl; simpl; auto).
  destruct (truthy (lookup "browser" (o1 ++ o2))); [reflexivity|].
  destruct (hasOwnProperty (VObj (o1 ++ o2)) "hasOwnProperty"); [reflexivity|].
  do 2 f_equal. apply map_ext_in. intros [k' v'] Hin. cbn [fst snd].
  assert (Hk' : k <> k').
  { apply Hl. right; right; right. now apply (in_map fst) in Hin. }
  unfold get. cbn [props].
  now rewrite hasOwn_insert_other, lookup_insert_other.
Qed.


Lemma MemoryModel_fields_again_witness :
  MemoryModel (VObj [])
  = Normal {| svg_width := "800"; svg_height := "800";
              fields := config_object |}
  /\ exists m', MemoryModel (VObj config_object) = Normal m'
                /\ fields m' = config_object.
Proof.
  split; [reflexivity|].
  apply (MemoryModel_fields_again []
           {| svg_width := "800"; svg_height := "800";
              fields := config_object |} eq_refl).
Defined.

Lemma MemoryModel_ignores_unknown_witness :
  ~ In "colour" ("width" :: "height" :: "hasOwnProperty"
                   :: map fst config_object)
  /\ MemoryModel (VObj ([("font_size", VNum 17)] ++ ("colour", VStr "red")
                          :: []))
     = MemoryModel (VObj ([("font_size", VNum 17)] ++ [])).
Proof.
  assert (H : ~ In "colour" ("width" :: "height" :: "hasOwnProperty"
                               :: map fst config_object))
    by (simpl; intuition discriminate).
  split; [exact H|].
  apply (MemoryModel_ignores_unknown [("font_size", VNum 17)] [] "colour"
           (VStr "red") H).
Defined.
